(** * Sonetra AI Mixer: the dashboard's client-side logic

    A shallow embedding of the TypeScript front end: the upload list of the
    Studio page, the mixing console's track list, the axios service layer,
    the mock request handlers and the [AudioProcessor] component with its
    analysis and transition workflows.

    JavaScript numbers are IEEE binary64 values and are modelled by Rocq's
    primitive floats; strings are [string]; arrays are lists; [null] and
    [undefined] are [None]. *)

From Stdlib Require Import ZArith QArith Qabs Qround Floats Ascii String DecimalString.
From stdpp Require Import base option list strings.

Set Warnings "-inexact-float".

#[local] Open Scope string_scope.
#[local] Open Scope list_scope.

(** ** ECMAScript numbers and their conversions to strings *)

Module Number.

Definition number : Type := float.

(** [if (x)] on a number: false for [+0], [-0] and [NaN]. *)
Definition truthy (x : number) : bool :=
  negb (PrimFloat.eqb x 0%float || PrimFloat.is_nan x).

Definition digits (n : N) : string := NilZero.string_of_uint (N.to_uint n).

Fixpoint zeros (k : nat) : string :=
  match k with
  | O => ""
  | S k' => "0" +:+ zeros k'
  end.

Definition sign_prefix (negative : bool) : string :=
  if negative then "-" else "".

(** The real number denoted by a finite non-zero double [m * 2^e]. *)
Definition magnitude (m : positive) (e : Z) : Q :=
  (inject_Z (Z.pos m) * Qpower 2 e)%Q.

Definition Qltb (a b : Q) : bool := negb (Qle_bool b a).

(** *** Number::toString, radix 10

    ECMAScript picks integers [n], [k], [s] with [k >= 1],
    [10^(k-1) <= s < 10^k], such that [s * 10^(n-k)] reads back as the
    number and [k] is as small as possible; a decimal reads back as the
    double when it lies in the double's rounding interval. *)

(** The half-way points to the neighbouring doubles. The lower neighbour is
    twice as close at a power of two. *)
Definition rounding_interval (m : positive) (e : Z) : Q * Q :=
  let lo :=
    if (Z.pos m =? 2 ^ 52)%Z && (-1074 <? e)%Z
    then (inject_Z (4 * Z.pos m - 1) * Qpower 2 (e - 2))%Q
    else (inject_Z (2 * Z.pos m - 1) * Qpower 2 (e - 1))%Q in
  let hi := (inject_Z (2 * Z.pos m + 1) * Qpower 2 (e - 1))%Q in
  (lo, hi).

(** Round-to-nearest, ties-to-even: the end points read back as the double
    only when its significand is even. *)
Definition reads_back (m : positive) (e : Z) (v : Q) : bool :=
  let '(lo, hi) := rounding_interval m e in
  if Z.even (Z.pos m)
  then Qle_bool lo v && Qle_bool v hi
  else Qltb lo v && Qltb v hi.

(** The integer [n] with [10^(n-1) <= x < 10^n], searched upwards from [n]. *)
Fixpoint decimal_exponent_from (fuel : nat) (n : Z) (x : Q) : Z :=
  match fuel with
  | O => n
  | S fuel' =>
      if Qltb x (Qpower 10 n) then n
      else decimal_exponent_from fuel' (n + 1)%Z x
  end.

Definition decimal_exponent (x : Q) : Z :=
  decimal_exponent_from 640 (-324) x.

Definition Qdist (a b : Q) : Q := Qabs (a - b).

(** For a digit count [k]: the [k]-digit decimal closest to [x] that reads
    back, if there is one, as [(s, n)]. *)
Definition candidate (m : positive) (e : Z) (n0 : Z) (k : Z) : option (Z * Z) :=
  let x := magnitude m e in
  let unit := Qpower 10 (n0 - k) in
  let s_lo := Qfloor (x / unit) in
  let s_hi := (s_lo + 1)%Z in
  let v_lo := (inject_Z s_lo * unit)%Q in
  let v_hi := (inject_Z s_hi * unit)%Q in
  let ok_lo := reads_back m e v_lo in
  let ok_hi := reads_back m e v_hi in
  let norm (s : Z) := if (s =? 10 ^ k)%Z then (10 ^ (k - 1), n0 + 1)%Z else (s, n0) in
  let lo_closer :=
    Qltb (Qdist x v_lo) (Qdist x v_hi)
    || (Qeq_bool (Qdist x v_lo) (Qdist x v_hi) && Z.even s_lo) in
  match ok_lo, ok_hi with
  | true, true => Some (norm (if lo_closer then s_lo else s_hi))
  | true, false => Some (norm s_lo)
  | false, true => Some (norm s_hi)
  | false, false => None
  end.

Fixpoint shortest_from (fuel : nat) (m : positive) (e : Z) (n0 : Z) (k : Z)
  : Z * Z * Z :=
  match candidate m e n0 k with
  | Some (s, n) => (s, k, n)
  | None =>
      match fuel with
      | O => (Qfloor (magnitude m e / Qpower 10 (n0 - k)), k, n0)
      | S fuel' => shortest_from fuel' m e n0 (k + 1)%Z
      end
  end.

(** Seventeen significant digits always read back. *)
Definition shortest (m : positive) (e : Z) : Z * Z * Z :=
  shortest_from 16 m e (decimal_exponent (magnitude m e)) 1.

Definition format_decimal (s k n : Z) : string :=
  let ds := digits (Z.to_N s) in
  if (-5 <=? n)%Z && (n <=? 21)%Z then
    if (k <=? n)%Z then ds +:+ zeros (Z.to_nat (n - k))
    else if (0 <? n)%Z then
      String.substring 0 (Z.to_nat n) ds +:+ "." +:+
      String.substring (Z.to_nat n) (Z.to_nat (k - n)) ds
    else "0." +:+ zeros (Z.to_nat (- n)) +:+ ds
  else
    let ex := (n - 1)%Z in
    let exp_sign := if (ex <? 0)%Z then "-" else "+" in
    let exp_digits := digits (Z.to_N (Z.abs ex)) in
    if (k =? 1)%Z then ds +:+ "e" +:+ exp_sign +:+ exp_digits
    else String.substring 0 1 ds +:+ "." +:+ String.substring 1 (Z.to_nat (k - 1)) ds
         +:+ "e" +:+ exp_sign +:+ exp_digits.

Definition toString_magnitude (m : positive) (e : Z) : string :=
  let '(s, k, n) := shortest m e in format_decimal s k n.

Definition toString (x : number) : string :=
  match Prim2SF x with
  | S754_nan => "NaN"
  | S754_zero _ => "0"
  | S754_infinity negative => sign_prefix negative +:+ "Infinity"
  | S754_finite negative m e => sign_prefix negative +:+ toString_magnitude m e
  end.

(** *** Number.prototype.toFixed

    [fractionDigits] is a natural number up to 100 at every call site. The
    integer [n] with [n / 10^f] closest to the number, the larger one on a
    tie, is written with at least [f + 1] digits and a point before the
    last [f]. *)
Definition fixed_digits (f : nat) (n : Z) : string :=
  let m := digits (Z.to_N n) in
  match f with
  | O => m
  | _ =>
      let k := String.length m in
      let m' := if (k <=? f)%nat then zeros (f + 1 - k) +:+ m else m in
      let k' := String.length m' in
      String.substring 0 (k' - f) m' +:+ "." +:+ String.substring (k' - f) f m'
  end.

Definition nearest_scaled (f : nat) (x : Q) : Z :=
  Qfloor (x * Qpower 10 (Z.of_nat f) + (1 # 2)).

Definition toFixed (f : nat) (x : number) : string :=
  match Prim2SF x with
  | S754_nan | S754_infinity _ => toString x
  | S754_zero _ => fixed_digits f 0
  | S754_finite negative m e =>
      sign_prefix negative +:+
      (if Qle_bool (Qpower 10 21) (magnitude m e)
       then toString_magnitude m e
       else fixed_digits f (nearest_scaled f (magnitude m e)))
  end.

End Number.

Import Number.

(** ** Browser values *)

(** A [File] as the pages use it: its name, its size in bytes (a number) and
    its MIME type. *)
Module File.
Record t : Type := mk { name : string; size : number; type : string }.
End File.

Module Blob.
Record t : Type := mk { parts : list string; type : string }.
End Blob.

(** ** pages/Studio.tsx: the upload list *)

Module Studio.

Record AudioFile : Type := {
  id : string;
  file : File.t;
  name : string;
  size : string;
  duration : option string;
  waveform : option (list number)
}.

Record State : Type := {
  audioFiles : list AudioFile;
  isPlaying : bool;
  currentFile : option AudioFile;
  volume : number;
  isProcessing : bool;
  uploadProgress : number
}.

(** [useState] initial values. *)
Definition initial : State := {|
  audioFiles := [];
  isPlaying := false;
  currentFile := None;
  volume := 0.8%float;
  isProcessing := false;
  uploadProgress := 0%float
|}.

Definition setAudioFiles (f : list AudioFile → list AudioFile) (s : State) : State :=
  {| audioFiles := f (audioFiles s); isPlaying := isPlaying s;
     currentFile := currentFile s; volume := volume s;
     isProcessing := isProcessing s; uploadProgress := uploadProgress s |}.

Definition setCurrentFile (c : option AudioFile) (s : State) : State :=
  {| audioFiles := audioFiles s; isPlaying := isPlaying s;
     currentFile := c; volume := volume s;
     isProcessing := isProcessing s; uploadProgress := uploadProgress s |}.

Definition setIsPlaying (b : bool) (s : State) : State :=
  {| audioFiles := audioFiles s; isPlaying := b;
     currentFile := currentFile s; volume := volume s;
     isProcessing := isProcessing s; uploadProgress := uploadProgress s |}.

(** The page together with the number of [Math.random] calls made so far. *)
Record Session : Type := { state : State; draws : nat }.

Definition start : Session := {| state := initial; draws := 0 |}.

Section Upload.

(** The pseudo-random source: [random36 i] is what the [i]-th call of
    [Math.random().toString(36)] returns, a string such as
    ["0.4fzyo82mvyr"]. *)
Variable random36 : nat → string.

(** [Math.random().toString(36).substr(2, 9)] at the [i]-th call. *)
Definition randomId (i : nat) : string := String.substring 2 9 (random36 i).

(** [(file.size / (1024 * 1024)).toFixed(2) + ' MB'] *)
Definition sizeLabel (f : File.t) : string :=
  toFixed 2 (File.size f / (1024 * 1024))%float +:+ " MB".

(** The record built for one dropped file. *)
Definition audioFileOf (i : nat) (f : File.t) : AudioFile := {|
  id := randomId i;
  file := f;
  name := File.name f;
  size := sizeLabel f;
  duration := None;
  waveform := None
|}.

(** The body of the [forEach] callback of [onDrop]. *)
Definition onDrop_each (s : Session) (f : File.t) : Session :=
  let audioFile := audioFileOf (draws s) f in
  {| state := setAudioFiles (λ prev, prev ++ [audioFile]) (state s);
     draws := S (draws s) |}.

Definition onDrop (acceptedFiles : list File.t) (s : Session) : Session :=
  fold_left onDrop_each acceptedFiles s.

(** A sequence of drops, one after the other. *)
Definition uploads (drops : list (list File.t)) (s : Session) : Session :=
  fold_left (λ s' acceptedFiles, onDrop acceptedFiles s') drops s.

End Upload.

(** [currentFile?.id === id] *)
Definition isCurrent (c : option AudioFile) (i : string) : bool :=
  match c with
  | Some f => bool_decide (id f = i)
  | None => false
  end.

Definition removeFile (i : string) (s : State) : State :=
  let s1 := setAudioFiles (filter (λ f, id f ≠ i)) s in
  if isCurrent (currentFile s) i
  then setIsPlaying false (setCurrentFile None s1)
  else s1.

End Studio.

(** ** The mixing console: tracks and their reset *)

Module Mixing.

Record Eq3 : Type := { low : number; mid : number; high : number }.

Record Fx : Type := { reverb : number; delay : number; compression : number }.

Record Track : Type := {
  id : string;
  name : string;
  color : string;
  volume : number;
  pan : number;
  muted : bool;
  solo : bool;
  eq : Eq3;
  effects : Fx
}.

(** [Partial<Track>]: a field that is absent is [None]. *)
Record PartialTrack : Type := {
  p_id : option string;
  p_name : option string;
  p_color : option string;
  p_volume : option number;
  p_pan : option number;
  p_muted : option bool;
  p_solo : option bool;
  p_eq : option Eq3;
  p_effects : option Fx
}.

Definition no_updates : PartialTrack := {|
  p_id := None; p_name := None; p_color := None; p_volume := None;
  p_pan := None; p_muted := None; p_solo := None; p_eq := None;
  p_effects := None
|}.

(** [{ ...track, ...updates }] *)
Definition spread (track : Track) (updates : PartialTrack) : Track := {|
  id := default (id track) (p_id updates);
  name := default (name track) (p_name updates);
  color := default (color track) (p_color updates);
  volume := default (volume track) (p_volume updates);
  pan := default (pan track) (p_pan updates);
  muted := default (muted track) (p_muted updates);
  solo := default (solo track) (p_solo updates);
  eq := default (eq track) (p_eq updates);
  effects := default (effects track) (p_effects updates)
|}.

Definition updateTrack (i : string) (updates : PartialTrack) (tracks : list Track)
  : list Track :=
  map (λ track, if bool_decide (id track = i) then spread track updates else track)
      tracks.

Definition resetUpdates : PartialTrack := {|
  p_id := None; p_name := None; p_color := None;
  p_volume := Some 75;
  p_pan := Some 0;
  p_muted := None; p_solo := None;
  p_eq := Some {| low := 0; mid := 0; high := 0 |};
  p_effects := Some {| reverb := 0; delay := 0; compression := 0 |}
|}%float.

Definition resetTrack (i : string) (tracks : list Track) : list Track :=
  updateTrack i resetUpdates tracks.

(** The console's initial four tracks. *)
Definition initialTracks : list Track := [
  {| id := "1"; name := "Drums"; color := "#ef4444"; volume := 75; pan := 0;
     muted := false; solo := false;
     eq := {| low := 0; mid := 0; high := 0 |};
     effects := {| reverb := 0; delay := 0; compression := 30 |} |};
  {| id := "2"; name := "Bass"; color := "#8b5cf6"; volume := 65; pan := -10;
     muted := false; solo := false;
     eq := {| low := 5; mid := -2; high := -5 |};
     effects := {| reverb := 10; delay := 0; compression := 50 |} |};
  {| id := "3"; name := "Guitar"; color := "#10b981"; volume := 70; pan := 25;
     muted := false; solo := false;
     eq := {| low := -3; mid := 3; high := 2 |};
     effects := {| reverb := 25; delay := 15; compression := 20 |} |};
  {| id := "4"; name := "Vocals"; color := "#f59e0b"; volume := 80; pan := 0;
     muted := false; solo := false;
     eq := {| low := -5; mid := 2; high := 8 |};
     effects := {| reverb := 35; delay := 20; compression := 40 |} |}
]%float.

End Mixing.

(** ** The HTTP client (axios) as the code uses it *)

Module Axios.

Inductive FormDataEntryValue : Type :=
  | EntryFile (f : File.t)
  | EntryString (s : string).

(** A [FormData] is the list of its entries, in the order of the appends. *)
Definition FormData : Type := list (string * FormDataEntryValue).

Definition append (name : string) (value : FormDataEntryValue) (fd : FormData)
  : FormData :=
  fd ++ [(name, value)].

Definition fieldNames (fd : FormData) : list string := map fst fd.

Inductive Method : Type := GET | POST.

Inductive ResponseType : Type := JsonResponse | BlobResponse.

(** What a call of [post] hands to the adapter. [baseURL] and [timeout] come
    from the instance ([None] for the global [axios]), the rest from the
    call. *)
Record Request : Type := {
  method : Method;
  baseURL : option string;
  url : string;
  data : FormData;
  contentType : string;
  responseType : ResponseType;
  timeout : option Z
}.

Definition isAlpha (c : ascii) : bool :=
  let n := nat_of_ascii c in
  ((97 <=? n) && (n <=? 122) || (65 <=? n) && (n <=? 90))%nat.

Definition isSchemeChar (c : ascii) : bool :=
  let n := nat_of_ascii c in
  (isAlpha c || (48 <=? n) && (n <=? 57) || (n =? 43) || (n =? 45) || (n =? 46))%nat.

Fixpoint afterSchemeChars (s : string) : string :=
  match s with
  | String c s' => if isSchemeChar c then afterSchemeChars s' else s
  | EmptyString => s
  end.

(** [/^([a-z][a-z\d+\-.]*:)?\/\//i.test(url)] *)
Definition isAbsoluteURL (u : string) : bool :=
  String.prefix "//" u ||
  match u with
  | String c rest =>
      isAlpha c && String.prefix "://" (afterSchemeChars rest)
  | EmptyString => false
  end.

Fixpoint dropLeadingSlashes (s : string) : string :=
  match s with
  | String "/"%char s' => dropLeadingSlashes s'
  | _ => s
  end.

(** [s.replace(/\/?\/$/, '')]: one or two slashes at the end are cut.
    Releases of the library that cut every slash at the end give the same
    on a string that ends in at most two. *)
Fixpoint dropTrailingSlash (s : string) : string :=
  match s with
  | EmptyString => EmptyString
  | String "/"%char EmptyString => EmptyString
  | String "/"%char (String "/"%char EmptyString) => EmptyString
  | String c s' => String c (dropTrailingSlash s')
  end.

Definition combineURLs (base relativeURL : string) : string :=
  match relativeURL with
  | EmptyString => base
  | _ => dropTrailingSlash base +:+ "/" +:+ dropLeadingSlashes relativeURL
  end.

Definition buildFullPath (base : option string) (requestedURL : string) : string :=
  match base with
  | Some b =>
      if negb (String.eqb b "") && negb (isAbsoluteURL requestedURL)
      then combineURLs b requestedURL
      else requestedURL
  | None => requestedURL
  end.

(** The URL the request goes to. *)
Definition fullURL (r : Request) : string := buildFullPath (baseURL r) (url r).

(** What comes back from the network: nothing (no connection, time-out), or
    a status with the decoded body. *)
Inductive HttpReply (A : Type) : Type :=
  | NetworkFailure
  | Reply (status : Z) (body : A).
Arguments NetworkFailure {A}.
Arguments Reply {A} status body.

Inductive AxiosError : Type :=
  | NoResponse
  | BadStatus (status : Z).

Inductive Settled (A : Type) : Type :=
  | Fulfilled (data : A)
  | Rejected (reason : AxiosError).
Arguments Fulfilled {A} data.
Arguments Rejected {A} reason.

(** The default [validateStatus]. *)
Definition validateStatus (status : Z) : bool :=
  (200 <=? status)%Z && (status <? 300)%Z.

(** The promise of [post]: fulfilled with [response.data] on a 2xx status,
    rejected otherwise. *)
Definition settle {A : Type} (r : HttpReply A) : Settled A :=
  match r with
  | NetworkFailure => Rejected NoResponse
  | Reply status body =>
      if validateStatus status then Fulfilled body else Rejected (BadStatus status)
  end.

End Axios.

(** ** services/api.ts *)

Module Api.

Import Axios.

Definition localBackend : string := "http://localhost:8000".

(** [process.env.REACT_APP_BACKEND_URL || 'http://localhost:8000']: the
    argument is the variable's value, [None] when it is unset. *)
Definition API_BASE_URL (env : option string) : string :=
  match env with
  | Some v => if String.eqb v "" then localBackend else v
  | None => localBackend
  end.

Record AudioAnalysis : Type := {
  beats : list number;
  key : string;
  scale : string;
  tempo : number;
  energy : number;
  spectral_centroid : number
}.

Record TransitionSettings : Type := {
  style : string;
  duration : option number;
  crossfade : option number
}.

Record StyleTransferSettings : Type := {
  target_style : string;
  intensity : option number;
  preserve_vocals : option bool
}.

(** [if (x)] on an optional number. *)
Definition provided (x : option number) : bool :=
  match x with
  | Some d => truthy d
  | None => false
  end.

Section Instance.

(** The value of [REACT_APP_BACKEND_URL] when the module is loaded. *)
Variable env : option string.

(** [api.post(url, formData, config)] on the instance made by
    [axios.create]. *)
Definition api_post (u : string) (fd : FormData) (rt : ResponseType) : Request := {|
  method := POST;
  baseURL := Some (API_BASE_URL env);
  url := u;
  data := fd;
  contentType := "multipart/form-data";
  responseType := rt;
  timeout := Some 30000%Z
|}.

(** The request of [analyzeTrack]. *)
Definition analyzeTrack_request (file : File.t) : Request :=
  let formData := append "file" (EntryFile file) [] in
  api_post "/api/analyze/track" formData JsonResponse.

(** The request of [createTransition]. *)
Definition createTransition_request (file1 file2 : File.t)
    (settings : TransitionSettings) : Request :=
  let formData := append "file1" (EntryFile file1) [] in
  let formData := append "file2" (EntryFile file2) formData in
  let formData := append "style" (EntryString (style settings)) formData in
  let formData :=
    match duration settings with
    | Some d =>
        if truthy d
        then append "duration" (EntryString (Number.toString d)) formData
        else formData
    | None => formData
    end in
  api_post "/api/transition/create" formData BlobResponse.

(** The request of [transferStyle]. *)
Definition transferStyle_request (file : File.t)
    (settings : StyleTransferSettings) : Request :=
  let formData := append "file" (EntryFile file) [] in
  let formData := append "target_style" (EntryString (target_style settings)) formData in
  let formData :=
    match intensity settings with
    | Some x =>
        if truthy x
        then append "intensity" (EntryString (Number.toString x)) formData
        else formData
    | None => formData
    end in
  api_post "/api/style/transfer" formData BlobResponse.

(** Each function awaits its request and returns [response.data]; a
    rejection passes to the caller. The backend is a function from the
    request to what comes back. *)
Definition analyzeTrack (backend : Request → HttpReply AudioAnalysis)
    (file : File.t) : Settled AudioAnalysis :=
  settle (backend (analyzeTrack_request file)).

Definition createTransition (backend : Request → HttpReply Blob.t)
    (file1 file2 : File.t) (settings : TransitionSettings) : Settled Blob.t :=
  settle (backend (createTransition_request file1 file2 settings)).

Definition transferStyle (backend : Request → HttpReply Blob.t)
    (file : File.t) (settings : StyleTransferSettings) : Settled Blob.t :=
  settle (backend (transferStyle_request file settings)).

End Instance.

End Api.

(** ** mocks/handlers.ts *)

Module Mocks.

Import Axios.

(** [rest.post(url, resolver)]: the URL it answers and what it answers. *)
Record Handler (A : Type) : Type := {
  h_method : Method;
  h_url : string;
  h_resolver : Request → HttpReply A
}.
Arguments h_method {A}.
Arguments h_url {A}.
Arguments h_resolver {A}.

Definition analysisPayload : Api.AudioAnalysis := {|
  Api.beats := [0.5; 1.0; 1.5; 2.0]%float;
  Api.key := "C";
  Api.scale := "major";
  Api.tempo := 120%float;
  Api.energy := 0.8%float;
  Api.spectral_centroid := 2000%float
|}.

Definition audioBlob : Blob.t :=
  {| Blob.parts := ["mock audio data"]; Blob.type := "audio/wav" |}.

Definition analyzeHandler : Handler Api.AudioAnalysis := {|
  h_method := POST;
  h_url := "http://localhost:8000/analyze/track";
  h_resolver := λ _, Reply 200 analysisPayload
|}.

Definition transitionHandler : Handler Blob.t := {|
  h_method := POST;
  h_url := "http://localhost:8000/transition/create";
  h_resolver := λ _, Reply 200 audioBlob
|}.

Definition sameMethod (a b : Method) : bool :=
  match a, b with
  | GET, GET | POST, POST => true
  | _, _ => false
  end.

Definition startsQueryOrFragment (c : ascii) : bool :=
  Ascii.eqb c "?" || Ascii.eqb c "#".

(** The URL without its query string and fragment. *)
Fixpoint cleanUrl (u : string) : string :=
  match u with
  | EmptyString => EmptyString
  | String c u' =>
      if startsQueryOrFragment c then EmptyString else String c (cleanUrl u')
  end.

(** A handler matches a request by method and by origin and path: the
    query string and the fragment of the URL are left out of the
    comparison. The library also accepts another letter case and one more
    slash at the end of the path; that leniency is not modelled, and no
    result below says of such a URL that it is not matched. *)
Definition matches {A : Type} (h : Handler A) (r : Request) : bool :=
  sameMethod (h_method h) (method r)
  && String.eqb (cleanUrl (h_url h)) (cleanUrl (fullURL r)).

(** A request the handler matches is answered by its resolver; any other
    goes to the network, where the tests have no backend. *)
Definition intercept {A : Type} (h : Handler A) (r : Request) : HttpReply A :=
  if matches h r then h_resolver h r else NetworkFailure.

End Mocks.

(** ** components/AudioProcessor.tsx *)

Module AudioProcessor.

Import Axios.

(** The component declares the same interface as the service layer. *)
Definition AudioAnalysis : Type := Api.AudioAnalysis.

Record State : Type := {
  file1 : option File.t;
  file2 : option File.t;
  analysis : option AudioAnalysis;
  transitionStyle : string;
  loading : bool;
  error : option string;
  isPlaying : bool;
  volume : number
}.

Definition initial : State := {|
  file1 := None;
  file2 := None;
  analysis := None;
  transitionStyle := "smooth";
  loading := false;
  error := None;
  isPlaying := false;
  volume := 1%float
|}.

Definition setFile1 (f : option File.t) (s : State) : State :=
  {| file1 := f; file2 := file2 s; analysis := analysis s;
     transitionStyle := transitionStyle s; loading := loading s;
     error := error s; isPlaying := isPlaying s; volume := volume s |}.

Definition setFile2 (f : option File.t) (s : State) : State :=
  {| file1 := file1 s; file2 := f; analysis := analysis s;
     transitionStyle := transitionStyle s; loading := loading s;
     error := error s; isPlaying := isPlaying s; volume := volume s |}.

Definition setAnalysis (a : option AudioAnalysis) (s : State) : State :=
  {| file1 := file1 s; file2 := file2 s; analysis := a;
     transitionStyle := transitionStyle s; loading := loading s;
     error := error s; isPlaying := isPlaying s; volume := volume s |}.

Definition setTransitionStyle (t : string) (s : State) : State :=
  {| file1 := file1 s; file2 := file2 s; analysis := analysis s;
     transitionStyle := t; loading := loading s;
     error := error s; isPlaying := isPlaying s; volume := volume s |}.

Definition setLoading (b : bool) (s : State) : State :=
  {| file1 := file1 s; file2 := file2 s; analysis := analysis s;
     transitionStyle := transitionStyle s; loading := b;
     error := error s; isPlaying := isPlaying s; volume := volume s |}.

Definition setError (e : option string) (s : State) : State :=
  {| file1 := file1 s; file2 := file2 s; analysis := analysis s;
     transitionStyle := transitionStyle s; loading := loading s;
     error := e; isPlaying := isPlaying s; volume := volume s |}.

Definition setIsPlaying (b : bool) (s : State) : State :=
  {| file1 := file1 s; file2 := file2 s; analysis := analysis s;
     transitionStyle := transitionStyle s; loading := loading s;
     error := error s; isPlaying := b; volume := volume s |}.

Definition setVolume (v : number) (s : State) : State :=
  {| file1 := file1 s; file2 := file2 s; analysis := analysis s;
     transitionStyle := transitionStyle s; loading := loading s;
     error := error s; isPlaying := isPlaying s; volume := v |}.

(** *** The waveform widget and the other things a handler touches *)

(** What an object URL made by [URL.createObjectURL] stands for. *)
Inductive Media : Type :=
  | OfFile (f : File.t)
  | OfBlob (b : Blob.t).

Record Marker : Type := { time : number; color : string; position : string }.

(** The instance held in the [wavesurfer] ref, as far as the handlers can
    tell: whether a call of [load] or of [addMarker] completes or throws. *)
Record WaveSurfer : Type := {
  load_ok : Media → bool;
  addMarker_ok : Marker → bool
}.

Inductive Exn : Type :=
  | RequestError (e : AxiosError)
  | WidgetError (method_name : string).

Inductive Effect : Type :=
  | HttpPost (r : Request)
  | CreateObjectURL (m : Media)
  | Load (m : Media)
  | AddMarker (m : Marker)
  | Download (m : Media) (filename : string)
  | ConsoleError (e : Exn).

(** *** Handlers: state, exceptions and a log of effects *)

Inductive Result (A : Type) : Type :=
  | Normal (a : A)
  | Throw (e : Exn).
Arguments Normal {A} a.
Arguments Throw {A} e.

Definition M (A : Type) : Type := State → Result A * State * list Effect.

Definition ret {A : Type} (a : A) : M A := λ s, (Normal a, s, []).

Definition bind {A B : Type} (c : M A) (k : A → M B) : M B :=
  λ s,
    match c s with
    | (Normal a, s1, l1) => let '(r, s2, l2) := k a s1 in (r, s2, l1 ++ l2)
    | (Throw e, s1, l1) => (Throw e, s1, l1)
    end.

#[export] Instance M_ret : MRet M := @ret.
#[export] Instance M_bind : MBind M := λ A B k c, bind c k.

Definition throw {A : Type} (e : Exn) : M A := λ s, (Throw e, s, []).

Definition update (f : State → State) : M unit := λ s, (Normal tt, f s, []).

Definition emit (e : Effect) : M unit := λ s, (Normal tt, s, [e]).

(** [try { body } catch (err) { handler }] *)
Definition tryCatch (body : M unit) (handler : Exn → M unit) : M unit :=
  λ s,
    match body s with
    | (Normal a, s1, l1) => (Normal a, s1, l1)
    | (Throw e, s1, l1) => let '(r, s2, l2) := handler e s1 in (r, s2, l1 ++ l2)
    end.

(** [try { body } finally { cleanup }] *)
Definition finally (body : M unit) (cleanup : M unit) : M unit :=
  λ s,
    let '(r, s1, l1) := body s in
    match cleanup s1 with
    | (Normal _, s2, l2) => (r, s2, l1 ++ l2)
    | (Throw e, s2, l2) => (Throw e, s2, l1 ++ l2)
    end.

Fixpoint forEach {A : Type} (l : list A) (f : A → M unit) : M unit :=
  match l with
  | [] => ret tt
  | x :: l' => f x ;; forEach l' f
  end.

(** [await p] on a settled promise. *)
Definition await {A : Type} (p : Settled A) : M A :=
  match p with
  | Fulfilled d => ret d
  | Rejected e => throw (RequestError e)
  end.

(** The state and the effects of a run. *)
Definition run {A : Type} (c : M A) (s : State) : State * list Effect :=
  let '(_, s', l) := c s in (s', l).

Definition ws_load (w : WaveSurfer) (m : Media) : M unit :=
  if load_ok w m then emit (Load m) else throw (WidgetError "load").

Definition ws_addMarker (w : WaveSurfer) (m : Marker) : M unit :=
  if addMarker_ok w m then emit (AddMarker m) else throw (WidgetError "addMarker").

Section Mounted.

(** [wavesurfer.current] after mounting: the instance, or [null]. *)
Variable wavesurfer : option WaveSurfer.

(** [handleFileChange]: the state is set after the widget has loaded the
    file; a failing load leaves it as it was. *)
Definition handleFileChange (file : option File.t) (isFirst : bool) : M unit :=
  match file, wavesurfer with
  | Some f, Some w =>
      emit (CreateObjectURL (OfFile f)) ;;
      ws_load w (OfFile f) ;;
      if isFirst then update (setFile1 (Some f)) else update (setFile2 (Some f))
  | _, _ => ret tt
  end.

(** **** handleAnalyze *)

Definition analyzeRequest (f : File.t) : Request := {|
  method := POST;
  baseURL := None;
  url := "http://localhost:8000/analyze/track";
  data := append "file" (EntryFile f) [];
  contentType := "multipart/form-data";
  responseType := JsonResponse;
  timeout := None
|}.

(** Up to the [await]: the guard, the two flags and the request. *)
Definition handleAnalyze_begin : M (option Request) :=
  λ s,
    match file1 s with
    | None => ret None s
    | Some f =>
        (update (setLoading true) ;;
         update (setError None) ;;
         emit (HttpPost (analyzeRequest f)) ;;
         ret (Some (analyzeRequest f))) s
    end.

(** From the settlement of the request to the end of the handler. *)
Definition handleAnalyze_resume (response : Settled AudioAnalysis) : M unit :=
  finally
    (tryCatch
       (data ← await response;
        update (setAnalysis (Some data)) ;;
        match wavesurfer with
        | Some w =>
            forEach (Api.beats data) (λ beat,
              ws_addMarker w {| time := beat; color := "#ff0000"; position := "top" |})
        | None => ret tt
        end)
       (λ err,
          update (setError (Some "Failed to analyze audio")) ;;
          emit (ConsoleError err)))
    (update (setLoading false)).

Definition handleAnalyze (backend : Request → HttpReply AudioAnalysis) : M unit :=
  r ← handleAnalyze_begin;
  match r with
  | Some req => handleAnalyze_resume (settle (backend req))
  | None => ret tt
  end.

(** **** handleCreateTransition *)

Definition transitionRequest (f1 f2 : File.t) (style : string) : Request := {|
  method := POST;
  baseURL := None;
  url := "http://localhost:8000/transition/create";
  data := append "style" (EntryString style)
            (append "file2" (EntryFile f2) (append "file1" (EntryFile f1) []));
  contentType := "multipart/form-data";
  responseType := BlobResponse;
  timeout := None
|}.

Definition handleCreateTransition_begin : M (option Request) :=
  λ s,
    match file1 s, file2 s with
    | Some f1, Some f2 =>
        let req := transitionRequest f1 f2 (transitionStyle s) in
        (update (setLoading true) ;;
         update (setError None) ;;
         emit (HttpPost req) ;;
         ret (Some req)) s
    | _, _ => ret None s
    end.

Definition handleCreateTransition_resume (response : Settled Blob.t) : M unit :=
  finally
    (tryCatch
       (data ← await response;
        emit (CreateObjectURL (OfBlob data)) ;;
        match wavesurfer with
        | Some w => ws_load w (OfBlob data)
        | None => ret tt
        end ;;
        emit (Download (OfBlob data) "transition.wav"))
       (λ err,
          update (setError (Some "Failed to create transition")) ;;
          emit (ConsoleError err)))
    (update (setLoading false)).

Definition handleCreateTransition (backend : Request → HttpReply Blob.t) : M unit :=
  r ← handleCreateTransition_begin;
  match r with
  | Some req => handleCreateTransition_resume (settle (backend req))
  | None => ret tt
  end.

End Mounted.

(** *** What is rendered *)

Record View : Type := {
  analyzeDisabled : bool;
  transitionDisabled : bool;
  progress : bool;
  errorText : option string;
  analysisLines : list string
}.

Definition isNull {A : Type} (x : option A) : bool :=
  match x with
  | Some _ => false
  | None => true
  end.

Definition analysisView (a : AudioAnalysis) : list string := [
  "Analysis Results";
  "Key: " +:+ Api.key a +:+ " " +:+ Api.scale a;
  "Tempo: " +:+ toFixed 1 (Api.tempo a) +:+ " BPM";
  "Energy: " +:+ toFixed 2 (Api.energy a);
  "Spectral Centroid: " +:+ toFixed 2 (Api.spectral_centroid a) +:+ " Hz"
].

Definition render (s : State) : View := {|
  analyzeDisabled := isNull (file1 s) || loading s;
  transitionDisabled := isNull (file1 s) || isNull (file2 s) || loading s;
  progress := loading s;
  errorText :=
    match error s with
    | Some e => if String.eqb e "" then None else Some e
    | None => None
    end;
  analysisLines :=
    match analysis s with
    | Some a => analysisView a
    | None => []
    end
|}.

(** *** The component over time

    A press of a button runs a handler up to its [await]; the request is in
    flight until it settles, and then the rest of the handler runs. *)

Inductive Pending : Type := AwaitsAnalysis | AwaitsTransition.

Record UI : Type := { st : State; inflight : list Pending }.

Definition mounted : UI := {| st := initial; inflight := [] |}.

Inductive Event : Type :=
  | ClickAnalyze
  | ClickTransition
  | AnalysisSettles (reply : HttpReply AudioAnalysis)
  | TransitionSettles (reply : HttpReply Blob.t)
  | FileChosen (file : option File.t) (isFirst : bool)
  | StyleSelected (style : string)
  | VolumeChanged (v : number)
  | WidgetPlays
  | WidgetPauses.

Definition samePending (a b : Pending) : bool :=
  match a, b with
  | AwaitsAnalysis, AwaitsAnalysis | AwaitsTransition, AwaitsTransition => true
  | _, _ => false
  end.

(** The list without the first request of the given kind, when there is one. *)
Fixpoint settleOne (p : Pending) (l : list Pending) : option (list Pending) :=
  match l with
  | [] => None
  | q :: l' =>
      if samePending p q then Some l'
      else option_map (cons q) (settleOne p l')
  end.

Definition started (p : Pending) (c : M (option Request)) (ui : UI) : UI :=
  match c (st ui) with
  | (Normal (Some _), s', _) => {| st := s'; inflight := inflight ui ++ [p] |}
  | (_, s', _) => {| st := s'; inflight := inflight ui |}
  end.

(** One event; [None] when the event cannot happen in this state (the
    button is disabled, or no such request is in flight). *)
Definition step (wavesurfer : option WaveSurfer) (e : Event) (ui : UI) : option UI :=
  match e with
  | ClickAnalyze =>
      if analyzeDisabled (render (st ui)) then None
      else Some (started AwaitsAnalysis handleAnalyze_begin ui)
  | ClickTransition =>
      if transitionDisabled (render (st ui)) then None
      else Some (started AwaitsTransition handleCreateTransition_begin ui)
  | AnalysisSettles reply =>
      match settleOne AwaitsAnalysis (inflight ui) with
      | Some rest =>
          Some {| st := (run (handleAnalyze_resume wavesurfer (settle reply)) (st ui)).1;
                  inflight := rest |}
      | None => None
      end
  | TransitionSettles reply =>
      match settleOne AwaitsTransition (inflight ui) with
      | Some rest =>
          Some {| st := (run (handleCreateTransition_resume wavesurfer (settle reply))
                             (st ui)).1;
                  inflight := rest |}
      | None => None
      end
  | FileChosen file isFirst =>
      Some {| st := (run (handleFileChange wavesurfer file isFirst) (st ui)).1;
              inflight := inflight ui |}
  | StyleSelected style =>
      Some {| st := setTransitionStyle style (st ui); inflight := inflight ui |}
  | VolumeChanged v =>
      Some {| st := setVolume v (st ui); inflight := inflight ui |}
  | WidgetPlays =>
      Some {| st := setIsPlaying true (st ui); inflight := inflight ui |}
  | WidgetPauses =>
      Some {| st := setIsPlaying false (st ui); inflight := inflight ui |}
  end.

(** The states the component can be in after some events. *)
Inductive reachable (wavesurfer : option WaveSurfer) : UI → Prop :=
  | reachable_mounted : reachable wavesurfer mounted
  | reachable_step (ui ui' : UI) (e : Event) :
      reachable wavesurfer ui →
      step wavesurfer e ui = Some ui' →
      reachable wavesurfer ui'.

(** The loading flag tracks the request in flight: none and the flag off, or
    one, the flag on and no message shown. *)
Definition tracked (ui : UI) : Prop :=
  (inflight ui = [] ∧ loading (st ui) = false)
  ∨ (∃ p, inflight ui = [p] ∧ loading (st ui) = true ∧ error (st ui) = None).

End AudioProcessor.

(** ** pages/Studio.tsx: the rows of the list and the simulated analysis *)

Module StudioPage.

Import Studio.

Definition setIsProcessing (b : bool) (s : State) : State :=
  {| audioFiles := audioFiles s; isPlaying := isPlaying s;
     currentFile := currentFile s; volume := volume s;
     isProcessing := b; uploadProgress := uploadProgress s |}.

Definition setUploadProgress (p : number) (s : State) : State :=
  {| audioFiles := audioFiles s; isPlaying := isPlaying s;
     currentFile := currentFile s; volume := volume s;
     isProcessing := isProcessing s; uploadProgress := p |}.

Definition setVolume (v : number) (s : State) : State :=
  {| audioFiles := audioFiles s; isPlaying := isPlaying s;
     currentFile := currentFile s; volume := v;
     isProcessing := isProcessing s; uploadProgress := uploadProgress s |}.

(** The row's [onClick]: [setCurrentFile(file)]. *)
Definition onRowClick (file : AudioFile) (s : State) : State :=
  setCurrentFile (Some file) s.

(** The play button of a row: [setCurrentFile(file); setIsPlaying(!isPlaying)]. *)
Definition onPlayClick (file : AudioFile) (s : State) : State :=
  setIsPlaying (negb (isPlaying s)) (setCurrentFile (Some file) s).

(** The values [i] takes in [for (let i = 0; i <= 100; i += 10)], from [i]
    on; the fuel bounds the number of rounds. *)
Fixpoint progressFrom (fuel : nat) (i : number) : list number :=
  match fuel with
  | O => []
  | S fuel' =>
      if (i <=? 100)%float then i :: progressFrom fuel' (i + 10)%float else []
  end.

Definition progressValues : list number := progressFrom 12 0%float.

(** [handleAnalyze] of the page, as the state at each of its awaits, one per
    round of the loop, followed by the state it ends in. Nothing in the
    [try] throws. With no file selected it returns at once. *)
Definition handleAnalyze (s : State) : list State :=
  match currentFile s with
  | None => []
  | Some _ =>
      map (λ i, setUploadProgress i (setIsProcessing true s)) progressValues
      ++ [setUploadProgress 0%float (setIsProcessing false s)]
  end.

(** The button that starts it: shown with a file selected,
    [disabled={isProcessing}]. *)
Definition analyzeEnabled (s : State) : bool :=
  match currentFile s with
  | Some _ => negb (isProcessing s)
  | None => false
  end.

(** What the user can do on the list. A row is named by its position. *)
Inductive Event : Type :=
  | Drop (acceptedFiles : list File.t)
  | ClickRow (k : nat)
  | ClickPlay (k : nat)
  | ClickRemove (k : nat)
  | VolumeChanged (v : number).

Definition onState (f : State → State) (s : Session) : Session :=
  {| state := f (state s); draws := draws s |}.

(** One event; [None] when there is no such row. *)
Definition step (random36 : nat → string) (e : Event) (s : Session) : option Session :=
  match e with
  | Drop acceptedFiles => Some (onDrop random36 acceptedFiles s)
  | ClickRow k =>
      file ← audioFiles (state s) !! k; Some (onState (onRowClick file) s)
  | ClickPlay k =>
      file ← audioFiles (state s) !! k; Some (onState (onPlayClick file) s)
  | ClickRemove k =>
      file ← audioFiles (state s) !! k; Some (onState (removeFile (id file)) s)
  | VolumeChanged v => Some (onState (setVolume v) s)
  end.

Inductive reachable (random36 : nat → string) : Session → Prop :=
  | reachable_start : reachable random36 start
  | reachable_step (s s' : Session) (e : Event) :
      reachable random36 s →
      step random36 e s = Some s' →
      reachable random36 s'.

(** The selected record is a record of the list; playback runs only with a
    record selected; no more records than draws. *)
Definition consistent (s : Session) : Prop :=
  (∀ c, currentFile (state s) = Some c → c ∈ audioFiles (state s))
  ∧ (isPlaying (state s) = true → is_Some (currentFile (state s)))
  ∧ (length (audioFiles (state s)) ≤ draws s)%nat.

End StudioPage.

(** ** The mixing console: the controls of a track *)

Module MixingPage.

Import Mixing.

(** [tracks.find(t => t.id === selectedTrack)] *)
Definition currentTrack (selectedTrack : string) (tracks : list Track) : option Track :=
  List.find (λ t, bool_decide (id t = selectedTrack)) tracks.

Definition volumeUpdate (v : number) : PartialTrack := {|
  p_id := None; p_name := None; p_color := None; p_volume := Some v;
  p_pan := None; p_muted := None; p_solo := None; p_eq := None;
  p_effects := None
|}.

Definition panUpdate (v : number) : PartialTrack := {|
  p_id := None; p_name := None; p_color := None; p_volume := None;
  p_pan := Some v; p_muted := None; p_solo := None; p_eq := None;
  p_effects := None
|}.

Definition mutedUpdate (b : bool) : PartialTrack := {|
  p_id := None; p_name := None; p_color := None; p_volume := None;
  p_pan := None; p_muted := Some b; p_solo := None; p_eq := None;
  p_effects := None
|}.

Definition soloUpdate (b : bool) : PartialTrack := {|
  p_id := None; p_name := None; p_color := None; p_volume := None;
  p_pan := None; p_muted := None; p_solo := Some b; p_eq := None;
  p_effects := None
|}.

Definition eqUpdate (e : Eq3) : PartialTrack := {|
  p_id := None; p_name := None; p_color := None; p_volume := None;
  p_pan := None; p_muted := None; p_solo := None; p_eq := Some e;
  p_effects := None
|}.

Definition effectsUpdate (e : Fx) : PartialTrack := {|
  p_id := None; p_name := None; p_color := None; p_volume := None;
  p_pan := None; p_muted := None; p_solo := None; p_eq := None;
  p_effects := Some e
|}.

(** The handlers of a strip; [track] is the track the strip was rendered
    for. *)
Definition onVolumeChange (track : Track) (value : number) (tracks : list Track)
  : list Track :=
  updateTrack (id track) (volumeUpdate value) tracks.

Definition onPanChange (track : Track) (value : number) (tracks : list Track)
  : list Track :=
  updateTrack (id track) (panUpdate value) tracks.

Definition onMuteClick (track : Track) (tracks : list Track) : list Track :=
  updateTrack (id track) (mutedUpdate (negb (muted track))) tracks.

Definition onSoloClick (track : Track) (tracks : list Track) : list Track :=
  updateTrack (id track) (soloUpdate (negb (solo track))) tracks.

(** The sliders of the detail panel; [current] is [currentTrack]. *)
Definition onEqLowChange (current : Track) (value : number) (tracks : list Track)
  : list Track :=
  updateTrack (id current)
    (eqUpdate {| low := value; mid := mid (eq current); high := high (eq current) |})
    tracks.

Definition onEqMidChange (current : Track) (value : number) (tracks : list Track)
  : list Track :=
  updateTrack (id current)
    (eqUpdate {| low := low (eq current); mid := value; high := high (eq current) |})
    tracks.

Definition onEqHighChange (current : Track) (value : number) (tracks : list Track)
  : list Track :=
  updateTrack (id current)
    (eqUpdate {| low := low (eq current); mid := mid (eq current); high := value |})
    tracks.

Definition onReverbChange (current : Track) (value : number) (tracks : list Track)
  : list Track :=
  updateTrack (id current)
    (effectsUpdate {| reverb := value; delay := delay (effects current);
                      compression := compression (effects current) |})
    tracks.

Definition onDelayChange (current : Track) (value : number) (tracks : list Track)
  : list Track :=
  updateTrack (id current)
    (effectsUpdate {| reverb := reverb (effects current); delay := value;
                      compression := compression (effects current) |})
    tracks.

Definition onCompressionChange (current : Track) (value : number)
    (tracks : list Track) : list Track :=
  updateTrack (id current)
    (effectsUpdate {| reverb := reverb (effects current);
                      delay := delay (effects current); compression := value |})
    tracks.

(** A press of the mute button of the strip at position [k], which was
    rendered from the list as it is. *)
Definition pressMute (k : nat) (tracks : list Track) : list Track :=
  match tracks !! k with
  | Some track => onMuteClick track tracks
  | None => tracks
  end.

Definition pressSolo (k : nat) (tracks : list Track) : list Track :=
  match tracks !! k with
  | Some track => onSoloClick track tracks
  | None => tracks
  end.

End MixingPage.

(** ** Sample values

    The files of the component's tests, a deployment with the variable set,
    two widgets and a pseudo-random source. *)

Module Samples.

Import Axios.

Definition testWav : File.t :=
  {| File.name := "test.wav"; File.size := 13; File.type := "audio/wav" |}%float.

Definition test1Wav : File.t :=
  {| File.name := "test1.wav"; File.size := 6; File.type := "audio/wav" |}%float.

Definition test2Wav : File.t :=
  {| File.name := "test2.wav"; File.size := 6; File.type := "audio/wav" |}%float.

Definition deployedBackend : option string := Some "https://api.sonetra.example".

(** An instance that loads audio and on which [addMarker] throws: the
    component creates its widget without registering a markers plugin. *)
Definition plainWidget : AudioProcessor.WaveSurfer :=
  {| AudioProcessor.load_ok := λ _, true; AudioProcessor.addMarker_ok := λ _, false |}.

(** An instance that draws markers. *)
Definition markerWidget : AudioProcessor.WaveSurfer :=
  {| AudioProcessor.load_ok := λ _, true; AudioProcessor.addMarker_ok := λ _, true |}.

(** Two draws that differ from the twelfth character on. *)
Definition closeDraws (i : nat) : string :=
  match i with
  | O => "0.k3jd82hfa1x"
  | S _ => "0.k3jd82hfa9q"
  end.

(** The handler of the test [shows error message on API failure]. *)
Definition serverError : Request → HttpReply AudioProcessor.AudioAnalysis :=
  λ _, Reply 500 Mocks.analysisPayload.

Definition zeroDuration : Api.TransitionSettings :=
  {| Api.style := "smooth"; Api.duration := Some 0%float; Api.crossfade := None |}.

Definition twoSeconds : Api.TransitionSettings :=
  {| Api.style := "harmonic"; Api.duration := Some 2%float; Api.crossfade := None |}.

(** The component after [test.wav] was chosen in the first slot and
    "Analyze Track" was pressed. *)
Definition analyzing : AudioProcessor.UI := {|
  AudioProcessor.st :=
    AudioProcessor.setError None
      (AudioProcessor.setLoading true
         (AudioProcessor.setFile1 (Some testWav) AudioProcessor.initial));
  AudioProcessor.inflight := [AudioProcessor.AwaitsAnalysis]
|}.

(** The Studio page after two files were dropped and the play button of
    the second row was pressed. *)
Definition playingSecond : Studio.Session := {|
  Studio.state :=
    StudioPage.onPlayClick (Studio.audioFileOf closeDraws 1 test2Wav)
      (Studio.state (Studio.onDrop closeDraws [test1Wav; test2Wav] Studio.start));
  Studio.draws := 2
|}.

(** The component with the two test files selected. *)
Definition twoFiles : AudioProcessor.State :=
  AudioProcessor.setFile2 (Some test2Wav)
    (AudioProcessor.setFile1 (Some test1Wav) AudioProcessor.initial).

(** The component after [test.wav] was chosen, "Analyze Track" was pressed
    and the request got no response. *)
Definition analysisFailed : AudioProcessor.UI := {|
  AudioProcessor.st :=
    AudioProcessor.setLoading false
      (AudioProcessor.setError (Some "Failed to analyze audio")
         (AudioProcessor.st analyzing));
  AudioProcessor.inflight := []
|}.

(** A component without a widget after a file was chosen and the volume
    was turned down. *)
Definition quieter : AudioProcessor.UI := {|
  AudioProcessor.st := AudioProcessor.setVolume 0.5%float AudioProcessor.initial;
  AudioProcessor.inflight := []
|}.

(** A base URL that ends in a query string. *)
Definition queryBackend : option string :=
  Some "http://localhost:8000/analyze/track?x=".

Definition lofi : Api.StyleTransferSettings := {|
  Api.target_style := "lofi";
  Api.intensity := None;
  Api.preserve_vocals := None
|}.

Definition earlierAnalysis : AudioProcessor.AudioAnalysis := {|
  Api.beats := [];
  Api.key := "A";
  Api.scale := "minor";
  Api.tempo := 90%float;
  Api.energy := 0.5%float;
  Api.spectral_centroid := 1500%float
|}.

End Samples.

(** * Properties *)

(** ** Numbers *)

Lemma SFeqb_refl_finite (s : bool) (m : positive) (e : Z) :
  SFeqb (S754_finite s m e) (S754_finite s m e) = true.
Proof.
  unfold SFeqb, SFcompare.
  rewrite Z.compare_refl, Pos.compare_cont_refl.
  by destruct s.
Qed.

(** A number is truthy unless it is a zero or [NaN]. *)
Lemma truthy_spec (x : number) :
  truthy x =
  match Prim2SF x with
  | S754_zero _ | S754_nan => false
  | S754_infinity _ | S754_finite _ _ _ => true
  end.
Proof.
  unfold truthy, is_nan.
  rewrite !FloatAxioms.eqb_spec.
  change (Prim2SF 0) with (S754_zero false).
  destruct (Prim2SF x) as [s | s | | s m e]; try by destruct s.
  - reflexivity.
  - rewrite SFeqb_refl_finite. by destruct s.
Qed.

(** ** The service layer *)

Section ApiFacts.

Import Axios Api.

Variable env : option string.

Lemma API_BASE_URL_unset : API_BASE_URL None = "http://localhost:8000".
Proof. reflexivity. Qed.

Lemma API_BASE_URL_set (v : string) : v ≠ "" → API_BASE_URL (Some v) = v.
Proof.
  intros Hv. unfold API_BASE_URL.
  destruct (String.eqb_spec v ""); [done | reflexivity].
Qed.

(** The three requests of the service layer carry the base URL chosen by
    the variable. *)
Lemma api_requests_baseURL (f f' : File.t) (ts : TransitionSettings)
    (ss : StyleTransferSettings) :
  baseURL (analyzeTrack_request env f) = Some (API_BASE_URL env)
  ∧ baseURL (createTransition_request env f f' ts) = Some (API_BASE_URL env)
  ∧ baseURL (transferStyle_request env f ss) = Some (API_BASE_URL env).
Proof. done. Qed.

Lemma fieldNames_append (n : string) (v : FormDataEntryValue) (fd : FormData) :
  fieldNames (append n v fd) = fieldNames fd ++ [n].
Proof. unfold fieldNames, append. by rewrite map_app. Qed.

Lemma createTransition_fieldNames (f1 f2 : File.t) (s : TransitionSettings) :
  fieldNames (data (createTransition_request env f1 f2 s))
  = ["file1"; "file2"; "style"] ++ (if provided (duration s) then ["duration"] else []).
Proof.
  unfold createTransition_request, provided. cbn [data api_post].
  destruct (duration s) as [d|]; [destruct (truthy d)|];
    by rewrite ?fieldNames_append.
Qed.

End ApiFacts.

(** C1, at a deployment with the variable set: the requests of the service
    layer go to the host the variable names, and the requests the
    [AudioProcessor] component issues for the same two workflows go to
    [http://localhost:8000], which is written into its handlers. *)
Theorem AudioProcessor_host_not_selected_by_env :
  Axios.fullURL (Api.analyzeTrack_request Samples.deployedBackend Samples.test1Wav)
    = "https://api.sonetra.example/api/analyze/track"
  ∧ (AudioProcessor.run
       (AudioProcessor.handleAnalyze_begin)
       (AudioProcessor.setFile1 (Some Samples.test1Wav) AudioProcessor.initial)).2
    = [AudioProcessor.HttpPost (AudioProcessor.analyzeRequest Samples.test1Wav)]
  ∧ Axios.fullURL (AudioProcessor.analyzeRequest Samples.test1Wav)
    = "http://localhost:8000/analyze/track"
  ∧ Axios.fullURL
      (AudioProcessor.transitionRequest Samples.test1Wav Samples.test2Wav "smooth")
    = "http://localhost:8000/transition/create"
  ∧ String.prefix (Api.API_BASE_URL Samples.deployedBackend)
      (Axios.fullURL (AudioProcessor.analyzeRequest Samples.test1Wav)) = false.
Proof. repeat split; vm_compute; reflexivity. Qed.

(** ** The transition request of the service layer *)

(** C9 as stated fails: a duration of zero is provided in the settings and
    the request carries no [duration] field. *)
Lemma createTransition_zero_duration_dropped :
  Api.duration Samples.zeroDuration = Some 0%float
  ∧ Axios.fieldNames
      (Axios.data (Api.createTransition_request None Samples.test1Wav
                     Samples.test2Wav Samples.zeroDuration))
    = ["file1"; "file2"; "style"].
Proof. split; reflexivity. Qed.

(** C9, amended: the request carries the fields [file1], [file2] and
    [style], in this order, followed by [duration] exactly when the settings
    hold a duration that is neither zero nor [NaN]. *)
Theorem createTransition_fields (env : option string) (f1 f2 : File.t)
    (s : Api.TransitionSettings) :
  Axios.fieldNames (Axios.data (Api.createTransition_request env f1 f2 s))
    = ["file1"; "file2"; "style"]
      ++ (if Api.provided (Api.duration s) then ["duration"] else [])
  ∧ ("duration" ∈ Axios.fieldNames (Axios.data (Api.createTransition_request env f1 f2 s))
     ↔ ∃ d, Api.duration s = Some d
            ∧ match Prim2SF d with
              | S754_zero _ | S754_nan => False
              | S754_infinity _ | S754_finite _ _ _ => True
              end).
Proof.
  rewrite createTransition_fieldNames. split; [done|].
  unfold Api.provided. destruct (Api.duration s) as [d|].
  - rewrite truthy_spec. split.
    + intros Hin. exists d. split; [done|].
      destruct (Prim2SF d); try done;
        by apply list_elem_of_In in Hin; cbn in Hin; intuition discriminate.
    + intros (d' & [= <-] & Hd).
      destruct (Prim2SF d); try done; apply list_elem_of_In; cbn; tauto.
  - split.
    + intros Hin. apply list_elem_of_In in Hin. cbn in Hin. intuition discriminate.
    + by intros (d & ? & _).
Qed.

(** ** The mixing console *)

Section MixingFacts.

Import Mixing.

Lemma spread_resetUpdates (t : Track) :
  spread t resetUpdates = {|
    id := id t; name := name t; color := color t;
    volume := 75; pan := 0; muted := muted t; solo := solo t;
    eq := {| low := 0; mid := 0; high := 0 |};
    effects := {| reverb := 0; delay := 0; compression := 0 |}
  |}%float.
Proof. reflexivity. Qed.

Lemma updateTrack_length (i : string) (u : PartialTrack) (tracks : list Track) :
  length (updateTrack i u tracks) = length tracks.
Proof. unfold updateTrack. apply length_map. Qed.

Lemma updateTrack_lookup (i : string) (u : PartialTrack) (tracks : list Track)
    (k : nat) :
  updateTrack i u tracks !! k
  = (λ t, if bool_decide (id t = i) then spread t u else t) <$> tracks !! k.
Proof. unfold updateTrack. apply list_lookup_fmap. Qed.

End MixingFacts.

(** C10: [resetTrack] keeps the length and the order of the list; position
    by position, the identifier, name, colour, muted and solo flags stay;
    a track with the given identifier gets volume 75, pan 0, the three EQ
    bands 0 and the three effect levels 0; any other track is unchanged. *)
Theorem resetTrack_frame (i : string) (tracks : list Mixing.Track) :
  length (Mixing.resetTrack i tracks) = length tracks
  ∧ Forall2
      (λ t t',
         Mixing.id t' = Mixing.id t
         ∧ Mixing.name t' = Mixing.name t
         ∧ Mixing.color t' = Mixing.color t
         ∧ Mixing.muted t' = Mixing.muted t
         ∧ Mixing.solo t' = Mixing.solo t
         ∧ (Mixing.id t = i →
            Mixing.volume t' = 75%float
            ∧ Mixing.pan t' = 0%float
            ∧ Mixing.low (Mixing.eq t') = 0%float
            ∧ Mixing.mid (Mixing.eq t') = 0%float
            ∧ Mixing.high (Mixing.eq t') = 0%float
            ∧ Mixing.reverb (Mixing.effects t') = 0%float
            ∧ Mixing.delay (Mixing.effects t') = 0%float
            ∧ Mixing.compression (Mixing.effects t') = 0%float)
         ∧ (Mixing.id t ≠ i → t' = t))
      tracks (Mixing.resetTrack i tracks).
Proof.
  split; [apply updateTrack_length|].
  unfold Mixing.resetTrack, Mixing.updateTrack.
  induction tracks as [|t tracks IH]; [constructor|].
  cbn [map]. constructor; [|exact IH].
  case_bool_decide as Hid.
  - rewrite spread_resetUpdates. cbn. by repeat split.
  - by repeat split.
Qed.

(** ** The upload list *)

Section StudioFacts.

Import Studio.

Variable random36 : nat → string.

Lemma onDrop_cons (f : File.t) (files : list File.t) (s : Session) :
  onDrop random36 (f :: files) s
  = onDrop random36 files (onDrop_each random36 s f).
Proof. reflexivity. Qed.

(** The list after a drop, and the number of draws. *)
Lemma onDrop_audioFiles (files : list File.t) (s : Session) :
  audioFiles (state (onDrop random36 files s))
  = audioFiles (state s)
    ++ imap (λ j f, audioFileOf random36 (draws s + j) f) files
  ∧ draws (onDrop random36 files s) = draws s + length files.
Proof.
  revert s. induction files as [|f files IH]; intros s.
  - cbn. by rewrite app_nil_r, Nat.add_0_r.
  - rewrite onDrop_cons. destruct (IH (onDrop_each random36 s f)) as [-> ->].
    cbn [onDrop_each state draws setAudioFiles audioFiles imap length].
    rewrite <- app_assoc, Nat.add_0_r. cbn [app]. split.
    + do 2 f_equal. apply imap_ext. intros j x _. cbn. f_equal. lia.
    + lia.
Qed.

(** A drop leaves the rest of the page as it was. *)
Lemma onDrop_other_fields (files : list File.t) (s : Session) :
  isPlaying (state (onDrop random36 files s)) = isPlaying (state s)
  ∧ currentFile (state (onDrop random36 files s)) = currentFile (state s).
Proof.
  revert s. induction files as [|f files IH]; intros s; [done|].
  rewrite onDrop_cons. by destruct (IH (onDrop_each random36 s f)) as [-> ->].
Qed.

Lemma uploads_concat (drops : list (list File.t)) (s : Session) :
  uploads random36 drops s = onDrop random36 (concat drops) s.
Proof.
  revert s. induction drops as [|d drops IH]; intros s; [done|].
  change (uploads random36 (d :: drops) s)
    with (uploads random36 drops (onDrop random36 d s)).
  rewrite IH. unfold onDrop. cbn [concat]. by rewrite fold_left_app.
Qed.

Lemma imap_audioFileOf_ids (k : nat) (files : list File.t) :
  map id (imap (λ j f, audioFileOf random36 (k + j) f) files)
  = map (randomId random36) (seq k (length files)).
Proof.
  revert k. induction files as [|f files IH]; intros k; [done|].
  cbn [imap map length seq]. rewrite Nat.add_0_r. f_equal.
  rewrite <- IH. f_equal. apply imap_ext. intros j x _. cbn. f_equal. lia.
Qed.

Lemma imap_audioFileOf_sources (g : nat → nat) (files : list File.t) :
  Forall2 (λ f a, file a = f ∧ name a = File.name f ∧ size a = sizeLabel f)
          files (imap (λ j f, audioFileOf random36 (g j) f) files).
Proof.
  revert g. induction files as [|f files IH]; intros g; [constructor|].
  cbn [imap]. constructor; [done|]. apply (IH (λ j, g (S j))).
Qed.

Lemma removeFile_audioFiles (i : string) (s : State) :
audioFiles (removeFile i s) = filter (λ f, id f ≠ i) (audioFiles s).
Proof. unfold removeFile. by destruct (isCurrent _ _). Qed.

End StudioFacts.

(** C6: a drop appends one record for each dropped file, in the order of
    the drop, each holding the file and showing its name; the records that
    were in the list stay in front, unchanged and in order. *)
Theorem onDrop_appends (random36 : nat → string) (acceptedFiles : list File.t)
    (s : Studio.Session) :
  ∃ added : list Studio.AudioFile,
    Studio.audioFiles (Studio.state (Studio.onDrop random36 acceptedFiles s))
      = Studio.audioFiles (Studio.state s) ++ added
    ∧ length added = length acceptedFiles
    ∧ Forall2 (λ f a, Studio.file a = f ∧ Studio.name a = File.name f)
              acceptedFiles added.
Proof.
  destruct (onDrop_audioFiles random36 acceptedFiles s) as [Hl _].
  eexists. split; [exact Hl|]. split; [apply length_imap|].
  eapply Forall2_impl; [apply imap_audioFileOf_sources|].
  cbn. intros f a (? & ? & _). done.
Qed.

(** C2 as stated fails: two uploads of one file, with two draws of
    [Math.random] whose base-36 strings agree on the nine characters kept,
    give two records with the same identifier. *)
Lemma uploads_identifier_collision :
  length (Studio.audioFiles (Studio.state
            (Studio.uploads Samples.closeDraws
               [[Samples.testWav]; [Samples.testWav]] Studio.start))) = 2
  ∧ Samples.closeDraws 0 ≠ Samples.closeDraws 1
  ∧ ¬ NoDup (map Studio.id (Studio.audioFiles (Studio.state
               (Studio.uploads Samples.closeDraws
                  [[Samples.testWav]; [Samples.testWav]] Studio.start)))).
Proof.
  split; [reflexivity|]. split; [discriminate|].
  vm_compute. intros H. apply NoDup_cons_1_1 in H. apply H. left.
Qed.

(** C2, amended: after any sequence of uploads the list has grown by one
    record for each uploaded file, identical files included; the new
    identifiers are the nine-character strings cut from the successive
    draws of [Math.random], so the identifiers in the list are pairwise
    distinct exactly when the old identifiers and these strings are. *)
Theorem uploads_records_and_identifiers (random36 : nat → string)
    (drops : list (list File.t)) (s : Studio.Session) :
  let s' := Studio.uploads random36 drops s in
  let n := length (concat drops) in
  length (Studio.audioFiles (Studio.state s'))
    = length (Studio.audioFiles (Studio.state s)) + n
  ∧ map Studio.id (Studio.audioFiles (Studio.state s'))
    = map Studio.id (Studio.audioFiles (Studio.state s))
      ++ map (Studio.randomId random36) (seq (Studio.draws s) n)
  ∧ (NoDup (map Studio.id (Studio.audioFiles (Studio.state s')))
     ↔ NoDup (map Studio.id (Studio.audioFiles (Studio.state s))
              ++ map (Studio.randomId random36) (seq (Studio.draws s) n))).
Proof.
  cbn zeta. rewrite uploads_concat.
  destruct (onDrop_audioFiles random36 (concat drops) s) as [-> _].
  rewrite length_app, length_imap, map_app, imap_audioFileOf_ids.
  done.
Qed.

(** C7 as stated fails: after two files were dropped with draws that give
    both records one identifier and the second row was set playing,
    removing the first row by its identifier also removes the second
    record, which is another record, and clears the selection and stops
    the playback, although the selected record is not the removed one. *)
Lemma removeFile_shared_identifier :
  StudioPage.step Samples.closeDraws (StudioPage.Drop [Samples.test1Wav; Samples.test2Wav])
    Studio.start
    = Some (Studio.onDrop Samples.closeDraws [Samples.test1Wav; Samples.test2Wav]
              Studio.start)
  ∧ StudioPage.step Samples.closeDraws (StudioPage.ClickPlay 1)
      (Studio.onDrop Samples.closeDraws [Samples.test1Wav; Samples.test2Wav]
         Studio.start)
    = Some Samples.playingSecond
  ∧ Studio.audioFiles (Studio.state Samples.playingSecond)
    = [Studio.audioFileOf Samples.closeDraws 0 Samples.test1Wav;
       Studio.audioFileOf Samples.closeDraws 1 Samples.test2Wav]
  ∧ Studio.audioFileOf Samples.closeDraws 1 Samples.test2Wav
    ≠ Studio.audioFileOf Samples.closeDraws 0 Samples.test1Wav
  ∧ Studio.currentFile (Studio.state Samples.playingSecond)
    = Some (Studio.audioFileOf Samples.closeDraws 1 Samples.test2Wav)
  ∧ Studio.isPlaying (Studio.state Samples.playingSecond) = true
  ∧ Studio.audioFiles
      (Studio.removeFile
         (Studio.id (Studio.audioFileOf Samples.closeDraws 0 Samples.test1Wav))
         (Studio.state Samples.playingSecond))
    = []
  ∧ Studio.currentFile
      (Studio.removeFile
         (Studio.id (Studio.audioFileOf Samples.closeDraws 0 Samples.test1Wav))
         (Studio.state Samples.playingSecond))
    = None
  ∧ Studio.isPlaying
      (Studio.removeFile
         (Studio.id (Studio.audioFileOf Samples.closeDraws 0 Samples.test1Wav))
         (Studio.state Samples.playingSecond))
    = false.
Proof.
  repeat split; try reflexivity.
  intros H. apply (f_equal Studio.name) in H. discriminate H.
Qed.

(** C7, amended: [removeFile] works by identifier. It keeps exactly the
    records whose identifier differs from the given one, in their order,
    and removes every record that has it. When the selected record has
    that identifier the selection is cleared and playback stops; otherwise
    the selection and the playback flag stay. Volume and progress stay. *)
Theorem removeFile_spec (i : string) (s : Studio.State) :
  let s' := Studio.removeFile i s in
  Studio.audioFiles s' = filter (λ f, Studio.id f ≠ i) (Studio.audioFiles s)
  ∧ (∀ f, f ∈ Studio.audioFiles s' ↔ f ∈ Studio.audioFiles s ∧ Studio.id f ≠ i)
  ∧ Studio.audioFiles s' `sublist_of` Studio.audioFiles s
  ∧ (∀ c, Studio.currentFile s = Some c → Studio.id c = i →
          Studio.currentFile s' = None ∧ Studio.isPlaying s' = false)
  ∧ ((∀ c, Studio.currentFile s = Some c → Studio.id c ≠ i) →
     Studio.currentFile s' = Studio.currentFile s
     ∧ Studio.isPlaying s' = Studio.isPlaying s)
  ∧ Studio.volume s' = Studio.volume s
  ∧ Studio.isProcessing s' = Studio.isProcessing s
  ∧ Studio.uploadProgress s' = Studio.uploadProgress s.
Proof.
  cbn zeta.
  rewrite removeFile_audioFiles. split; [done|]. split.
  { intros f. rewrite list_elem_of_filter. tauto. }
  split; [apply sublist_filter|].
  unfold Studio.removeFile, Studio.isCurrent.
  destruct (Studio.currentFile s) as [c|] eqn:Hc.
  - case_bool_decide as Hid; cbn; rewrite ?Hc.
    + split; [done|]. split; [|done].
      intros H. by destruct (H c eq_refl).
    + split; [|done].
      intros c' [= <-] Hi. done.
  - cbn. rewrite Hc. done.
Qed.

(** With pairwise distinct identifiers, removing the identifier of a record
    of the list shortens the list by exactly one. *)
Lemma removeFile_one (i : string) (s : Studio.State) :
  NoDup (map Studio.id (Studio.audioFiles s)) →
  i ∈ map Studio.id (Studio.audioFiles s) →
  S (length (Studio.audioFiles (Studio.removeFile i s)))
  = length (Studio.audioFiles s).
Proof.
  rewrite removeFile_audioFiles.
  induction (Studio.audioFiles s) as [|f l IH]; cbn [map]; intros Hnd Hin.
  - by apply elem_of_nil in Hin.
  - apply NoDup_cons in Hnd as [Hf Hnd].
    rewrite filter_cons. destruct (decide (Studio.id f ≠ i)) as [Hne | Heq].
    + cbn [length]. f_equal. apply IH; [done|].
      apply elem_of_cons in Hin as [-> | Hin]; done.
    + apply dec_stable in Heq. subst i. cbn [length]. f_equal.
      clear IH Hin Hnd. induction l as [|g l IH]; [done|].
      cbn [map] in Hf. apply not_elem_of_cons in Hf as [Hfg Hf].
      rewrite filter_cons_True by done. cbn [length]. f_equal. by apply IH.
Qed.

(** ** The [AudioProcessor] component *)

Section AudioProcessorFacts.

Import Axios AudioProcessor.

Variable wavesurfer : option WaveSurfer.

Lemma settle_network_failure {A : Type} :
  settle (@NetworkFailure A) = Rejected NoResponse.
Proof. reflexivity. Qed.

Lemma settle_bad_status {A : Type} (status : Z) (body : A) :
  validateStatus status = false →
  settle (Reply status body) = Rejected (BadStatus status).
Proof. intros H. unfold settle. by rewrite H. Qed.

Lemma settle_good_status {A : Type} (status : Z) (body : A) :
  validateStatus status = true → settle (Reply status body) = Fulfilled body.
Proof. intros H. unfold settle. by rewrite H. Qed.

(** Drawing the beat markers touches no state; it ends normally or with
    the widget's exception. *)
Lemma drawMarkers_result (w : WaveSurfer) (beats : list number) (s : State) :
  ∃ l, forEach beats (λ beat,
         ws_addMarker w {| time := beat; color := "#ff0000"; position := "top" |}) s
       = (Normal tt, s, l)
     ∨ forEach beats (λ beat,
         ws_addMarker w {| time := beat; color := "#ff0000"; position := "top" |}) s
       = (Throw (WidgetError "addMarker"), s, l).
Proof.
  induction beats as [|b beats [l IH]]; [exists []; by left|].
  cbn [forEach]. unfold mbind, M_bind, bind, ws_addMarker at 1 3.
  destruct (addMarker_ok w _).
  - cbn. destruct IH as [-> | ->]; eexists; [by left | by right].
  - cbn. eexists. by right.
Qed.

Lemma drawMarkers_all_ok (w : WaveSurfer) (beats : list number) (s : State) :
  (∀ m, addMarker_ok w m = true) →
  ∃ l, forEach beats (λ beat,
         ws_addMarker w {| time := beat; color := "#ff0000"; position := "top" |}) s
       = (Normal tt, s, l).
Proof.
  intros Hok. induction beats as [|b beats [l IH]]; [by exists []|].
  cbn [forEach]. unfold mbind, M_bind, bind, ws_addMarker at 1.
  rewrite Hok. cbn. rewrite IH. by eexists.
Qed.

(** The state after the request of [handleAnalyze] was rejected. *)
Lemma handleAnalyze_resume_rejected (e : AxiosError) (s : State) :
  run (handleAnalyze_resume wavesurfer (Rejected e)) s
  = (setLoading false (setError (Some "Failed to analyze audio") s),
     [ConsoleError (RequestError e)]).
Proof. reflexivity. Qed.

(** The state after it was fulfilled: the result is stored; the message
    is set when drawing the markers threw. *)
Lemma handleAnalyze_resume_fulfilled (data : AudioAnalysis) (s : State) :
  (run (handleAnalyze_resume wavesurfer (Fulfilled data)) s).1
    = setLoading false (setAnalysis (Some data) s)
  ∨ (run (handleAnalyze_resume wavesurfer (Fulfilled data)) s).1
    = setLoading false
        (setError (Some "Failed to analyze audio") (setAnalysis (Some data) s)).
Proof.
  unfold handleAnalyze_resume, run, finally, tryCatch, await.
  unfold mbind, M_bind, bind, ret, update, emit.
  destruct wavesurfer as [w|]; [|by left].
  cbn -[forEach ws_addMarker setAnalysis setLoading setError].
  match goal with
  | |- context [forEach _ _ ?s0] =>
      destruct (drawMarkers_result w (Api.beats data) s0) as [l [-> | ->]]
  end; [by left | by right].
Qed.

Lemma handleAnalyze_resume_fulfilled_ok (data : AudioAnalysis) (s : State) :
  (∀ w, wavesurfer = Some w → ∀ m, addMarker_ok w m = true) →
  (run (handleAnalyze_resume wavesurfer (Fulfilled data)) s).1
    = setLoading false (setAnalysis (Some data) s).
Proof.
  intros Hok.
  unfold handleAnalyze_resume, run, finally, tryCatch, await.
  unfold mbind, M_bind, bind, ret, update, emit.
  destruct wavesurfer as [w|]; [|done].
  cbn -[forEach ws_addMarker setAnalysis setLoading setError].
  match goal with
  | |- context [forEach _ _ ?s0] =>
      destruct (drawMarkers_all_ok w (Api.beats data) s0 (Hok w eq_refl)) as [l ->]
  end.
  done.
Qed.

(** A run of [handleAnalyze] with a file selected is its two halves. *)
Lemma handleAnalyze_selected (backend : Request → HttpReply AudioAnalysis)
    (s : State) (f : File.t) :
  file1 s = Some f →
  (run (handleAnalyze wavesurfer backend) s).1
  = (run (handleAnalyze_resume wavesurfer (settle (backend (analyzeRequest f))))
         (setError None (setLoading true s))).1.
Proof.
  intros Hf. unfold handleAnalyze, run, handleAnalyze_begin.
  unfold mbind, M_bind, bind, update, emit, ret. rewrite Hf.
  cbn -[handleAnalyze_resume setLoading setError].
  by destruct (handleAnalyze_resume _ _ _) as [[r s'] l].
Qed.

Lemma handleAnalyze_resume_loading (r : Settled AudioAnalysis) (s : State) :
  loading (run (handleAnalyze_resume wavesurfer r) s).1 = false.
Proof.
  destruct r as [data | e]; [|done].
  by destruct (handleAnalyze_resume_fulfilled data s) as [-> | ->].
Qed.

Lemma handleAnalyze_resume_error (r : Settled AudioAnalysis) (s : State) :
  error s = None →
  error (run (handleAnalyze_resume wavesurfer r) s).1 = None
  ∨ error (run (handleAnalyze_resume wavesurfer r) s).1
    = Some "Failed to analyze audio".
Proof.
  intros He. destruct r as [data | e]; [|by right].
  destruct (handleAnalyze_resume_fulfilled data s) as [-> | ->];
    [by left | by right].
Qed.

(** The same for [handleCreateTransition]. *)
Lemma handleCreateTransition_resume_state (r : Settled Blob.t) (s : State) :
  (run (handleCreateTransition_resume wavesurfer r) s).1 = setLoading false s
  ∨ (run (handleCreateTransition_resume wavesurfer r) s).1
    = setLoading false (setError (Some "Failed to create transition") s).
Proof.
  destruct r as [data | e]; [|by right].
  unfold handleCreateTransition_resume, run, finally, tryCatch, await.
  unfold mbind, M_bind, bind, update, emit, ret, ws_load, throw.
  destruct wavesurfer as [w|]; [|by left].
  destruct (load_ok w (OfBlob data)); [by left | by right].
Qed.

(** Choosing a file sets one of the two slots or nothing. *)
Lemma handleFileChange_state (file : option File.t) (isFirst : bool) (s : State) :
  (run (handleFileChange wavesurfer file isFirst) s).1 = s
  ∨ (run (handleFileChange wavesurfer file isFirst) s).1 = setFile1 file s
  ∨ (run (handleFileChange wavesurfer file isFirst) s).1 = setFile2 file s.
Proof.
  unfold handleFileChange, run.
  destruct file as [f|], wavesurfer as [w|]; try by left.
  unfold mbind, M_bind, bind, update, emit, ret, ws_load, throw.
  destruct (load_ok w (OfFile f)); [|by left].
  destruct isFirst; [right; by left | right; by right].
Qed.

(** Drawing stops at the first call that throws: it ends normally exactly
    when the widget draws the marker of every beat. *)
Lemma drawMarkers_outcome (w : WaveSurfer) (beats : list number) (s : State) :
  ∃ l, forEach beats (λ beat,
         ws_addMarker w {| time := beat; color := "#ff0000"; position := "top" |}) s
       = (if forallb (λ beat,
                addMarker_ok w {| time := beat; color := "#ff0000"; position := "top" |})
               beats
          then Normal tt
          else Throw (WidgetError "addMarker"),
          s, l).
Proof.
  induction beats as [|b beats [l IH]]; [by exists []|].
  cbn [forEach forallb]. unfold mbind, M_bind, bind, ws_addMarker at 1.
  destruct (addMarker_ok w _).
  - cbn. rewrite IH. destruct (forallb _ beats); by eexists.
  - cbn. by eexists.
Qed.

(** The state after a fulfilled request, by whether every marker was drawn. *)
Lemma handleAnalyze_resume_fulfilled_exact (data : AudioAnalysis) (s : State) :
  (run (handleAnalyze_resume wavesurfer (Fulfilled data)) s).1
  = if match wavesurfer with
       | Some w =>
           forallb (λ beat,
             addMarker_ok w {| time := beat; color := "#ff0000"; position := "top" |})
             (Api.beats data)
       | None => true
       end
    then setLoading false (setAnalysis (Some data) s)
    else setLoading false
           (setError (Some "Failed to analyze audio") (setAnalysis (Some data) s)).
Proof.
  unfold handleAnalyze_resume, run, finally, tryCatch, await.
  unfold mbind, M_bind, bind, ret, update, emit.
  destruct wavesurfer as [w|]; [|done].
  cbn -[forEach ws_addMarker setAnalysis setLoading setError forallb].
  match goal with
  | |- context [forEach _ _ ?s0] =>
      destruct (drawMarkers_outcome w (Api.beats data) s0) as [l ->]
  end.
  by destruct (forallb _ _).
Qed.

End AudioProcessorFacts.

(** C3 as stated fails: with a result already stored and a widget that has
    no [addMarker], a 200 response makes the first marker call throw inside
    the [try]; the message is set and the stored result has been replaced. *)
Lemma handleAnalyze_late_error_replaces_analysis :
  AudioProcessor.error
    (AudioProcessor.run
       (AudioProcessor.handleAnalyze (Some Samples.plainWidget)
          (Mocks.intercept Mocks.analyzeHandler))
       (AudioProcessor.setAnalysis (Some Samples.earlierAnalysis)
          (AudioProcessor.setFile1 (Some Samples.testWav) AudioProcessor.initial))).1
    = Some "Failed to analyze audio"
  ∧ AudioProcessor.analysis
      (AudioProcessor.run
         (AudioProcessor.handleAnalyze (Some Samples.plainWidget)
            (Mocks.intercept Mocks.analyzeHandler))
         (AudioProcessor.setAnalysis (Some Samples.earlierAnalysis)
            (AudioProcessor.setFile1 (Some Samples.testWav) AudioProcessor.initial))).1
    = Some Mocks.analysisPayload
  ∧ (AudioProcessor.run
       (AudioProcessor.handleAnalyze (Some Samples.plainWidget)
          (Mocks.intercept Mocks.analyzeHandler))
       (AudioProcessor.setAnalysis (Some Samples.earlierAnalysis)
          (AudioProcessor.setFile1 (Some Samples.testWav) AudioProcessor.initial))).2
    = [AudioProcessor.HttpPost (AudioProcessor.analyzeRequest Samples.testWav);
       AudioProcessor.ConsoleError (AudioProcessor.WidgetError "addMarker")]
  ∧ Api.key Mocks.analysisPayload ≠ Api.key Samples.earlierAnalysis.
Proof. repeat split; try (vm_compute; reflexivity). discriminate. Qed.

(** C3, amended. With a file selected, a run of [handleAnalyze] leaves the
    two selected files as they were and ends with the loading flag off.
    When the request is rejected (no response, or a status outside 2xx) the
    message is exactly "Failed to analyze audio", the stored result is the
    one from before, and with no result stored before the view shows the
    message and no analysis line. When the request is fulfilled the result
    is stored; the message is then "Failed to analyze audio" when the
    widget throws at the marker of one of the beats, and absent when there
    is no widget or every marker is drawn. *)
Theorem handleAnalyze_errors (wavesurfer : option AudioProcessor.WaveSurfer)
    (backend : Axios.Request → Axios.HttpReply AudioProcessor.AudioAnalysis)
    (s : AudioProcessor.State) (f : File.t) :
  AudioProcessor.file1 s = Some f →
  let s' := (AudioProcessor.run (AudioProcessor.handleAnalyze wavesurfer backend) s).1 in
  let outcome := Axios.settle (backend (AudioProcessor.analyzeRequest f)) in
  let marker beat :=
    {| AudioProcessor.time := beat; AudioProcessor.color := "#ff0000";
       AudioProcessor.position := "top" |} in
  (AudioProcessor.file1 s' = AudioProcessor.file1 s
   ∧ AudioProcessor.file2 s' = AudioProcessor.file2 s
   ∧ AudioProcessor.loading s' = false)
  ∧ (∀ e, outcome = Axios.Rejected e →
       AudioProcessor.error s' = Some "Failed to analyze audio"
       ∧ AudioProcessor.analysis s' = AudioProcessor.analysis s
       ∧ AudioProcessor.errorText (AudioProcessor.render s')
         = Some "Failed to analyze audio"
       ∧ (AudioProcessor.analysis s = None →
          AudioProcessor.analysisLines (AudioProcessor.render s') = []))
  ∧ (∀ data, outcome = Axios.Fulfilled data →
       AudioProcessor.analysis s' = Some data
       ∧ (AudioProcessor.error s' = None
          ∨ AudioProcessor.error s' = Some "Failed to analyze audio")
       ∧ AudioProcessor.error s'
         = (if match wavesurfer with
               | Some w =>
                   forallb (λ beat, AudioProcessor.addMarker_ok w (marker beat))
                           (Api.beats data)
               | None => true
               end
            then None
            else Some "Failed to analyze audio")
       ∧ (∀ w beat,
            wavesurfer = Some w → beat ∈ Api.beats data →
            AudioProcessor.addMarker_ok w (marker beat) = false →
            AudioProcessor.error s' = Some "Failed to analyze audio"
            ∧ AudioProcessor.errorText (AudioProcessor.render s')
              = Some "Failed to analyze audio")
       ∧ ((∀ w beat,
             wavesurfer = Some w → beat ∈ Api.beats data →
             AudioProcessor.addMarker_ok w (marker beat) = true) →
          AudioProcessor.error s' = None)).
Proof.
  intros Hf. cbn zeta. rewrite (handleAnalyze_selected _ _ _ _ Hf).
  destruct (Axios.settle (backend (AudioProcessor.analyzeRequest f)))
    as [data | e].
  - split; [|split; [done|]].
    + by destruct (handleAnalyze_resume_fulfilled wavesurfer data
                     (AudioProcessor.setError None (AudioProcessor.setLoading true s)))
        as [-> | ->].
    + intros ? [= <-].
      rewrite handleAnalyze_resume_fulfilled_exact.
      destruct wavesurfer as [w|].
      * destruct (forallb _ (Api.beats data)) eqn:Hall; cbn.
        -- split; [done|]. split; [by left|]. split; [done|]. split; [|done].
           intros w' beat [= <-] Hin Hno.
           rewrite forallb_forall in Hall.
           apply list_elem_of_In in Hin. specialize (Hall beat Hin). cbn in Hall.
           congruence.
        -- split; [done|]. split; [by right|]. split; [done|]. split; [done|].
           intros Hok. exfalso.
           assert (Htrue : forallb
                     (λ beat, AudioProcessor.addMarker_ok w
                        {| AudioProcessor.time := beat;
                           AudioProcessor.color := "#ff0000";
                           AudioProcessor.position := "top" |})
                     (Api.beats data) = true).
           { apply forallb_forall. intros beat Hin.
             apply (Hok w beat eq_refl). by apply list_elem_of_In. }
           congruence.
      * cbn. split; [done|]. split; [by left|]. split; [done|]. split; [|done].
        by intros w beat [=].
  - rewrite handleAnalyze_resume_rejected. cbn.
    split; [done|]. split; [|done]. intros _ _.
    repeat split. by intros ->.
Qed.

Lemma handleAnalyze_errors_witness :
  (AudioProcessor.error
     (AudioProcessor.run
        (AudioProcessor.handleAnalyze (Some Samples.markerWidget) Samples.serverError)
        (AudioProcessor.setFile1 (Some Samples.testWav) AudioProcessor.initial)).1
     = Some "Failed to analyze audio"
   ∧ AudioProcessor.analysisLines
       (AudioProcessor.render
          (AudioProcessor.run
             (AudioProcessor.handleAnalyze (Some Samples.markerWidget) Samples.serverError)
             (AudioProcessor.setFile1 (Some Samples.testWav) AudioProcessor.initial)).1)
     = [])
  ∧ AudioProcessor.error
      (AudioProcessor.run
         (AudioProcessor.handleAnalyze (Some Samples.plainWidget)
            (Mocks.intercept Mocks.analyzeHandler))
         (AudioProcessor.setFile1 (Some Samples.testWav) AudioProcessor.initial)).1
    = Some "Failed to analyze audio".
Proof.
  split.
  - destruct (handleAnalyze_errors (Some Samples.markerWidget) Samples.serverError
                (AudioProcessor.setFile1 (Some Samples.testWav) AudioProcessor.initial)
                Samples.testWav eq_refl) as (_ & Hrej & _).
    destruct (Hrej (Axios.BadStatus 500) eq_refl) as (He & _ & _ & Hlines).
    split; [exact He | exact (Hlines eq_refl)].
  - destruct (handleAnalyze_errors (Some Samples.plainWidget)
                (Mocks.intercept Mocks.analyzeHandler)
                (AudioProcessor.setFile1 (Some Samples.testWav) AudioProcessor.initial)
                Samples.testWav eq_refl) as (_ & _ & Hful).
    destruct (Hful Mocks.analysisPayload eq_refl) as (_ & _ & _ & Hthrow & _).
    refine (proj1 (Hthrow Samples.plainWidget 0.5%float eq_refl _ eq_refl)).
    apply list_elem_of_In. left. reflexivity.
Defined.

(** C4: the mock answers every request it matches with status 200 and the
    fixed payload; a run of [handleAnalyze] against it with a file selected
    stores that payload, and the view shows "Key: C major" and
    "Tempo: 120.0 BPM"; when the widget is absent or draws every marker the
    run ends with no message and the loading flag off. *)
Theorem mock_analysis_rendered (wavesurfer : option AudioProcessor.WaveSurfer)
    (s : AudioProcessor.State) (f : File.t) :
  AudioProcessor.file1 s = Some f →
  let s' := (AudioProcessor.run
               (AudioProcessor.handleAnalyze wavesurfer
                  (Mocks.intercept Mocks.analyzeHandler)) s).1 in
  (∀ r, Mocks.h_resolver Mocks.analyzeHandler r = Axios.Reply 200 Mocks.analysisPayload)
  ∧ AudioProcessor.analysis s' = Some Mocks.analysisPayload
  ∧ AudioProcessor.analysisLines (AudioProcessor.render s')
    = ["Analysis Results"; "Key: C major"; "Tempo: 120.0 BPM"; "Energy: 0.80";
       "Spectral Centroid: 2000.00 Hz"]
  ∧ AudioProcessor.loading s' = false
  ∧ ((∀ w, wavesurfer = Some w → ∀ m, AudioProcessor.addMarker_ok w m = true) →
     AudioProcessor.error s' = None).
Proof.
  intros Hf. cbn zeta. rewrite (handleAnalyze_selected _ _ _ _ Hf).
  change (Axios.settle
            (Mocks.intercept Mocks.analyzeHandler (AudioProcessor.analyzeRequest f)))
    with (@Axios.Fulfilled AudioProcessor.AudioAnalysis Mocks.analysisPayload).
  split; [done|].
  assert (Hlines : AudioProcessor.analysisView Mocks.analysisPayload
                   = ["Analysis Results"; "Key: C major"; "Tempo: 120.0 BPM";
                      "Energy: 0.80"; "Spectral Centroid: 2000.00 Hz"])
    by (vm_compute; reflexivity).
  split; [|split; [|split]].
  - by destruct (handleAnalyze_resume_fulfilled wavesurfer Mocks.analysisPayload
                   (AudioProcessor.setError None (AudioProcessor.setLoading true s)))
      as [-> | ->].
  - by destruct (handleAnalyze_resume_fulfilled wavesurfer Mocks.analysisPayload
                   (AudioProcessor.setError None (AudioProcessor.setLoading true s)))
      as [-> | ->].
  - apply handleAnalyze_resume_loading.
  - intros Hok. by rewrite handleAnalyze_resume_fulfilled_ok.
Qed.

Lemma mock_analysis_rendered_witness :
  AudioProcessor.analysis
    (AudioProcessor.run
       (AudioProcessor.handleAnalyze None (Mocks.intercept Mocks.analyzeHandler))
       (AudioProcessor.setFile1 (Some Samples.testWav) AudioProcessor.initial)).1
    = Some Mocks.analysisPayload
  ∧ AudioProcessor.analysisLines
      (AudioProcessor.render
         (AudioProcessor.run
            (AudioProcessor.handleAnalyze None (Mocks.intercept Mocks.analyzeHandler))
            (AudioProcessor.setFile1 (Some Samples.testWav) AudioProcessor.initial)).1)
    = ["Analysis Results"; "Key: C major"; "Tempo: 120.0 BPM"; "Energy: 0.80";
       "Spectral Centroid: 2000.00 Hz"].
Proof.
  destruct (mock_analysis_rendered None
              (AudioProcessor.setFile1 (Some Samples.testWav) AudioProcessor.initial)
              Samples.testWav eq_refl) as (_ & Ha & Hl & _).
  split; [exact Ha | exact Hl].
Defined.

(** C5: with the first or the second slot empty the transition button is
    disabled, a press of it is no event of the component, and the handler,
    should it be entered, returns at its guard: no request, no other
    effect, the state as it was. *)
Theorem transition_needs_two_files (wavesurfer : option AudioProcessor.WaveSurfer)
    (backend : Axios.Request → Axios.HttpReply Blob.t) (s : AudioProcessor.State) :
  AudioProcessor.file1 s = None ∨ AudioProcessor.file2 s = None →
  AudioProcessor.transitionDisabled (AudioProcessor.render s) = true
  ∧ AudioProcessor.run (AudioProcessor.handleCreateTransition wavesurfer backend) s
    = (s, [])
  ∧ (∀ pending,
       AudioProcessor.step wavesurfer AudioProcessor.ClickTransition
         {| AudioProcessor.st := s; AudioProcessor.inflight := pending |} = None).
Proof.
  intros Hnone.
  assert (Hdis : AudioProcessor.transitionDisabled (AudioProcessor.render s) = true).
  { cbn. destruct Hnone as [-> | ->]; cbn; [done|].
    by destruct (AudioProcessor.file1 s). }
  split; [exact Hdis|]. split.
  - unfold AudioProcessor.handleCreateTransition, AudioProcessor.run,
      AudioProcessor.handleCreateTransition_begin.
    unfold mbind, AudioProcessor.M_bind, AudioProcessor.bind.
    destruct Hnone as [-> | ->]; [done|].
    by destruct (AudioProcessor.file1 s).
  - intros pending. unfold AudioProcessor.step. cbn [AudioProcessor.st].
    by rewrite Hdis.
Qed.

Lemma transition_needs_two_files_witness :
  AudioProcessor.transitionDisabled
    (AudioProcessor.render
       (AudioProcessor.setFile1 (Some Samples.test1Wav) AudioProcessor.initial)) = true
  ∧ AudioProcessor.run
      (AudioProcessor.handleCreateTransition (Some Samples.markerWidget)
         (Mocks.intercept Mocks.transitionHandler))
      (AudioProcessor.setFile1 (Some Samples.test1Wav) AudioProcessor.initial)
    = (AudioProcessor.setFile1 (Some Samples.test1Wav) AudioProcessor.initial, []).
Proof.
  destruct (transition_needs_two_files (Some Samples.markerWidget)
              (Mocks.intercept Mocks.transitionHandler)
              (AudioProcessor.setFile1 (Some Samples.test1Wav) AudioProcessor.initial)
              (or_intror eq_refl)) as (Hd & Hr & _).
  split; [exact Hd | exact Hr].
Defined.

(** ** The loading flag over time *)

Section LoadingFacts.

Import Axios AudioProcessor.

Variable wavesurfer : option WaveSurfer.

Lemma analyze_enabled (s : State) :
  analyzeDisabled (render s) = false →
  loading s = false
  ∧ ∃ f, file1 s = Some f
         ∧ handleAnalyze_begin s
           = (Normal (Some (analyzeRequest f)), setError None (setLoading true s),
              [HttpPost (analyzeRequest f)]).
Proof.
  cbn. intros [Hf Hl]%orb_false_elim. split; [done|].
  unfold handleAnalyze_begin.
  destruct (file1 s) as [f|]; [|done]. by exists f.
Qed.

Lemma transition_enabled (s : State) :
  transitionDisabled (render s) = false →
  loading s = false
  ∧ ∃ f1 f2, file1 s = Some f1 ∧ file2 s = Some f2
         ∧ handleCreateTransition_begin s
           = (Normal (Some (transitionRequest f1 f2 (transitionStyle s))),
              setError None (setLoading true s),
              [HttpPost (transitionRequest f1 f2 (transitionStyle s))]).
Proof.
  cbn. intros [[Hf1 Hf2]%orb_false_elim Hl]%orb_false_elim. split; [done|].
  unfold handleCreateTransition_begin.
  destruct (file1 s) as [f1|]; [|done].
  destruct (file2 s) as [f2|]; [|done]. by exists f1, f2.
Qed.

Lemma settleOne_single (p q : Pending) (rest : list Pending) :
  settleOne p [q] = Some rest → p = q ∧ rest = [].
Proof. destruct p, q; cbn; intros [= <-]; done. Qed.

(** What one event does to the flag and to the requests in flight. *)
Lemma step_tracked (e : Event) (ui ui' : UI) :
  tracked ui →
  step wavesurfer e ui = Some ui' →
  tracked ui'
  ∧ match e with
    | ClickAnalyze =>
        loading (st ui) = false ∧ loading (st ui') = true
        ∧ error (st ui') = None ∧ inflight ui' = [AwaitsAnalysis]
    | ClickTransition =>
        loading (st ui) = false ∧ loading (st ui') = true
        ∧ error (st ui') = None ∧ inflight ui' = [AwaitsTransition]
    | AnalysisSettles _ =>
        loading (st ui) = true ∧ loading (st ui') = false ∧ inflight ui' = []
        ∧ (error (st ui') = None ∨ error (st ui') = Some "Failed to analyze audio")
    | TransitionSettles _ =>
        loading (st ui) = true ∧ loading (st ui') = false ∧ inflight ui' = []
        ∧ (error (st ui') = None
           ∨ error (st ui') = Some "Failed to create transition")
    | FileChosen _ _ | StyleSelected _ | VolumeChanged _ | WidgetPlays | WidgetPauses =>
        loading (st ui') = loading (st ui) ∧ inflight ui' = inflight ui
    end.
Proof.
  intros Htr Hstep. destruct ui as [s fl].
  unfold tracked in Htr |- *. cbn [st inflight] in *.
  destruct e as [| | reply | reply | file isFirst | style | v | |];
    cbn [step st inflight] in Hstep.
  - destruct (analyzeDisabled (render s)) eqn:Hd; [done|].
    destruct (analyze_enabled s Hd) as (Hl & f & Hf & Hb).
    injection Hstep as <-. unfold started. cbn [st inflight]. rewrite Hb.
    destruct Htr as [[Hfl _] | (p & _ & Hl' & _)]; [|congruence].
    cbn in Hfl. subst fl. cbn. split; [|done].
    right. by exists AwaitsAnalysis.
  - destruct (transitionDisabled (render s)) eqn:Hd; [done|].
    destruct (transition_enabled s Hd) as (Hl & f1 & f2 & Hf1 & Hf2 & Hb).
    injection Hstep as <-. unfold started. cbn [st inflight]. rewrite Hb.
    destruct Htr as [[Hfl _] | (p & _ & Hl' & _)]; [|congruence].
    cbn in Hfl. subst fl. cbn. split; [|done].
    right. by exists AwaitsTransition.
  - destruct (settleOne AwaitsAnalysis fl) as [rest|] eqn:Hs; [|done].
    injection Hstep as <-. cbn [st inflight].
    destruct Htr as [[Hfl _] | (p & Hfl & Hl & He)]; cbn in *; subst fl; [done|].
    apply settleOne_single in Hs as [_ ->].
    pose proof (handleAnalyze_resume_loading wavesurfer (settle reply) s) as Hl'.
    pose proof (handleAnalyze_resume_error wavesurfer (settle reply) s He) as He'.
    split; [left; done | done].
  - destruct (settleOne AwaitsTransition fl) as [rest|] eqn:Hs; [|done].
    injection Hstep as <-. cbn [st inflight].
    destruct Htr as [[Hfl _] | (p & Hfl & Hl & He)]; cbn in *; subst fl; [done|].
    apply settleOne_single in Hs as [_ ->].
    destruct (handleCreateTransition_resume_state wavesurfer (settle reply) s)
      as [-> | ->]; cbn; (split; [left; done|]); repeat split; auto.
  - injection Hstep as <-. cbn [st inflight].
    destruct (handleFileChange_state wavesurfer file isFirst s) as [-> | [-> | ->]];
      (split; [|done]); exact Htr.
  - injection Hstep as <-. done.
  - injection Hstep as <-. done.
  - injection Hstep as <-. done.
  - injection Hstep as <-. done.
Qed.

Lemma reachable_tracked (ui : UI) : reachable wavesurfer ui → tracked ui.
Proof.
  induction 1 as [|ui ui' e _ IH Hstep]; [by left|].
  exact (proj1 (step_tracked e ui ui' IH Hstep)).
Qed.

End LoadingFacts.

(** C8: in every state the component can reach, either no request is in
    flight and the loading flag is off, or exactly one is and the flag is
    on. A press of either button is possible only with the flag off and
    turns it on; the settlement of the request, fulfilled or rejected,
    turns it off, leaves nothing in flight and leaves either no message or
    the workflow's fixed message; no other event touches the flag. *)
Theorem loading_state_machine (wavesurfer : option AudioProcessor.WaveSurfer)
    (ui : AudioProcessor.UI) :
  AudioProcessor.reachable wavesurfer ui →
  ((AudioProcessor.inflight ui = [] ∧ AudioProcessor.loading (AudioProcessor.st ui) = false)
   ∨ (∃ p, AudioProcessor.inflight ui = [p]
           ∧ AudioProcessor.loading (AudioProcessor.st ui) = true))
  ∧ ∀ e ui', AudioProcessor.step wavesurfer e ui = Some ui' →
      match e with
      | AudioProcessor.ClickAnalyze | AudioProcessor.ClickTransition =>
          AudioProcessor.loading (AudioProcessor.st ui) = false
          ∧ AudioProcessor.loading (AudioProcessor.st ui') = true
          ∧ length (AudioProcessor.inflight ui') = 1
      | AudioProcessor.AnalysisSettles _ =>
          AudioProcessor.loading (AudioProcessor.st ui) = true
          ∧ AudioProcessor.loading (AudioProcessor.st ui') = false
          ∧ AudioProcessor.inflight ui' = []
          ∧ (AudioProcessor.error (AudioProcessor.st ui') = None
             ∨ AudioProcessor.error (AudioProcessor.st ui')
               = Some "Failed to analyze audio")
      | AudioProcessor.TransitionSettles _ =>
          AudioProcessor.loading (AudioProcessor.st ui) = true
          ∧ AudioProcessor.loading (AudioProcessor.st ui') = false
          ∧ AudioProcessor.inflight ui' = []
          ∧ (AudioProcessor.error (AudioProcessor.st ui') = None
             ∨ AudioProcessor.error (AudioProcessor.st ui')
               = Some "Failed to create transition")
      | _ =>
          AudioProcessor.loading (AudioProcessor.st ui')
            = AudioProcessor.loading (AudioProcessor.st ui)
          ∧ AudioProcessor.inflight ui' = AudioProcessor.inflight ui
      end.
Proof.
  intros Hreach. pose proof (reachable_tracked wavesurfer ui Hreach) as Htr.
  split.
  - destruct Htr as [? | (p & ? & ? & _)]; [by left | right; by exists p].
  - intros e ui' Hstep.
    destruct (step_tracked wavesurfer e ui ui' Htr Hstep) as [_ He].
    destruct e; try exact He.
    + destruct He as (? & ? & _ & ->). done.
    + destruct He as (? & ? & _ & ->). done.
Qed.

Lemma loading_state_machine_witness :
  AudioProcessor.reachable (Some Samples.markerWidget) Samples.analyzing
  ∧ ((AudioProcessor.inflight Samples.analyzing = []
      ∧ AudioProcessor.loading (AudioProcessor.st Samples.analyzing) = false)
     ∨ (∃ p, AudioProcessor.inflight Samples.analyzing = [p]
             ∧ AudioProcessor.loading (AudioProcessor.st Samples.analyzing) = true)).
Proof.
  assert (Hreach : AudioProcessor.reachable (Some Samples.markerWidget) Samples.analyzing).
  { eapply AudioProcessor.reachable_step with (e := AudioProcessor.ClickAnalyze).
    - eapply AudioProcessor.reachable_step
        with (e := AudioProcessor.FileChosen (Some Samples.testWav) true).
      + apply AudioProcessor.reachable_mounted.
      + reflexivity.
    - reflexivity. }
  split; [exact Hreach|].
  exact (proj1 (loading_state_machine (Some Samples.markerWidget) Samples.analyzing Hreach)).
Defined.

(** * Further properties *)

(** ** The mixing console: updates by identifier *)

Section MixingUpdates.

Import Mixing MixingPage.

Lemma spread_spread (t : Track) (u : PartialTrack) :
  spread (spread t u) u = spread t u.
Proof.
  destruct u as [[?|] [?|] [?|] [?|] [?|] [?|] [?|] [?|] [?|]]; reflexivity.
Qed.

Lemma spread_id (t : Track) (u : PartialTrack) :
  p_id u = None → id (spread t u) = id t.
Proof. intros H. cbn. by rewrite H. Qed.

(** Two updates that leave the identifier alone and touch different tracks
    can be swapped. *)
Lemma updateTrack_swap (i j : string) (u v : PartialTrack) (tracks : list Track) :
  i ≠ j → p_id u = None → p_id v = None →
  updateTrack i u (updateTrack j v tracks) = updateTrack j v (updateTrack i u tracks).
Proof.
  intros Hij Hu Hv. unfold updateTrack. rewrite !map_map.
  apply map_ext. intros t.
  destruct (decide (id t = j)) as [Hj | Hj];
    destruct (decide (id t = i)) as [Hi | Hi]; [congruence|..].
  all: repeat first
    [ rewrite (bool_decide_eq_true_2 (id t = _)) by done
    | rewrite (bool_decide_eq_false_2 (id t = _)) by done
    | rewrite spread_id by done ];
    done.
Qed.

(** With pairwise distinct identifiers, an update by the identifier of the
    track at a position is the update of that position. *)
Lemma updateTrack_at (k : nat) (t : Track) (u : PartialTrack) (tracks : list Track) :
  NoDup (map id tracks) →
  tracks !! k = Some t →
  updateTrack (id t) u tracks = <[k := spread t u]> tracks.
Proof.
  unfold updateTrack. revert k.
  induction tracks as [|x tracks IH]; intros k Hnd Hk; [done|].
  cbn [map] in Hnd. apply NoDup_cons in Hnd as [Hx Hnd].
  destruct k as [|k]; cbn in Hk.
  - injection Hk as ->. cbn [map]. rewrite bool_decide_eq_true_2 by done.
    cbn. f_equal.
    rewrite <- (map_id tracks) at 2. apply map_ext_in. intros y Hy.
    rewrite bool_decide_eq_false_2; [done|].
    intros Heq. apply Hx. rewrite <- Heq.
    apply list_elem_of_In. apply in_map. exact Hy.
  - cbn [map]. rewrite bool_decide_eq_false_2.
    + cbn. f_equal. by apply IH.
    + intros Heq. apply Hx. rewrite Heq.
      apply list_elem_of_fmap. exists t. split; [done|].
      by eapply list_elem_of_lookup_2.
Qed.

End MixingUpdates.

(** X1: applying the same update to the same identifier twice gives what
    applying it once gives; in particular a second reset changes nothing. *)
Theorem updateTrack_idempotent (i : string) (u : Mixing.PartialTrack)
    (tracks : list Mixing.Track) :
  Mixing.updateTrack i u (Mixing.updateTrack i u tracks) = Mixing.updateTrack i u tracks
  ∧ Mixing.resetTrack i (Mixing.resetTrack i tracks) = Mixing.resetTrack i tracks.
Proof.
  assert (H : ∀ v, Mixing.updateTrack i v (Mixing.updateTrack i v tracks)
                   = Mixing.updateTrack i v tracks).
  { intros v. unfold Mixing.updateTrack. rewrite map_map. apply map_ext. intros t.
    destruct (bool_decide_reflect (Mixing.id t = i)) as [Hi | Hi].
    - rewrite spread_spread. by case_bool_decide.
    - by rewrite bool_decide_eq_false_2. }
  split; [apply H | apply (H Mixing.resetUpdates)].
Qed.

(** X2: resets of two tracks give the same list in either order. *)
Theorem resetTrack_commute (i j : string) (tracks : list Mixing.Track) :
  Mixing.resetTrack i (Mixing.resetTrack j tracks)
  = Mixing.resetTrack j (Mixing.resetTrack i tracks).
Proof.
  destruct (decide (i = j)) as [-> | Hij]; [done|].
  by apply updateTrack_swap.
Qed.

(** X3: with pairwise distinct identifiers, the sliders and buttons of the
    strip rendered for the track at position [k] change that position of
    the list and nothing else: the volume slider its volume, the pan slider
    its pan, the mute and solo buttons flip its flag, the reset button sets
    the defaults. *)
Theorem strip_controls_update_in_place (k : nat) (track : Mixing.Track)
    (value : number) (tracks : list Mixing.Track) :
  NoDup (map Mixing.id tracks) →
  tracks !! k = Some track →
  MixingPage.onVolumeChange track value tracks
    = <[k := Mixing.spread track (MixingPage.volumeUpdate value)]> tracks
  ∧ Mixing.volume (Mixing.spread track (MixingPage.volumeUpdate value)) = value
  ∧ MixingPage.onPanChange track value tracks
    = <[k := Mixing.spread track (MixingPage.panUpdate value)]> tracks
  ∧ Mixing.pan (Mixing.spread track (MixingPage.panUpdate value)) = value
  ∧ MixingPage.onMuteClick track tracks
    = <[k := Mixing.spread track
               (MixingPage.mutedUpdate (negb (Mixing.muted track)))]> tracks
  ∧ MixingPage.onSoloClick track tracks
    = <[k := Mixing.spread track
               (MixingPage.soloUpdate (negb (Mixing.solo track)))]> tracks
  ∧ Mixing.resetTrack (Mixing.id track) tracks
    = <[k := Mixing.spread track Mixing.resetUpdates]> tracks.
Proof.
  intros Hnd Hk.
  unfold MixingPage.onVolumeChange, MixingPage.onPanChange, MixingPage.onMuteClick,
    MixingPage.onSoloClick, Mixing.resetTrack.
  rewrite !(updateTrack_at k track _ tracks Hnd Hk). done.
Qed.

Lemma strip_controls_update_in_place_witness :
  MixingPage.onVolumeChange
    {| Mixing.id := "2"; Mixing.name := "Bass"; Mixing.color := "#8b5cf6";
       Mixing.volume := 65; Mixing.pan := -10; Mixing.muted := false;
       Mixing.solo := false;
       Mixing.eq := {| Mixing.low := 5; Mixing.mid := -2; Mixing.high := -5 |};
       Mixing.effects := {| Mixing.reverb := 10; Mixing.delay := 0;
                            Mixing.compression := 50 |} |}%float
    40%float Mixing.initialTracks
  = <[1 := Mixing.spread
             {| Mixing.id := "2"; Mixing.name := "Bass"; Mixing.color := "#8b5cf6";
                Mixing.volume := 65; Mixing.pan := -10; Mixing.muted := false;
                Mixing.solo := false;
                Mixing.eq := {| Mixing.low := 5; Mixing.mid := -2; Mixing.high := -5 |};
                Mixing.effects := {| Mixing.reverb := 10; Mixing.delay := 0;
                                     Mixing.compression := 50 |} |}%float
             (MixingPage.volumeUpdate 40%float)]> Mixing.initialTracks.
Proof.
  refine (proj1 (strip_controls_update_in_place 1 _ 40%float Mixing.initialTracks _ _)).
  - vm_compute. repeat (constructor; [by intros ?%list_elem_of_In; cbn in *; intuition discriminate|]). constructor.
  - reflexivity.
Defined.

Section MixingPanel.

Import Mixing MixingPage.

Lemma insert_keeps_ids (k : nat) (t t' : Track) (tracks : list Track) :
  tracks !! k = Some t → id t' = id t →
  map id (<[k := t']> tracks) = map id tracks.
Proof.
  intros Hk Hid.
  change (id <$> <[k := t']> tracks = id <$> tracks).
  rewrite list_fmap_insert, Hid. apply list_insert_id.
  by rewrite list_lookup_fmap, Hk.
Qed.

Lemma spread_muted_twice (t : Track) :
  spread (spread t (mutedUpdate (negb (muted t))))
         (mutedUpdate (negb (muted (spread t (mutedUpdate (negb (muted t)))))))
  = t.
Proof. destruct t as [? ? ? ? ? m ? ? ?]. cbn. by rewrite negb_involutive. Qed.

Lemma spread_solo_twice (t : Track) :
  spread (spread t (soloUpdate (negb (solo t))))
         (soloUpdate (negb (solo (spread t (soloUpdate (negb (solo t)))))))
  = t.
Proof. destruct t as [? ? ? ? ? ? b ? ?]. cbn. by rewrite negb_involutive. Qed.

Lemma currentTrack_map (sel : string) (g : Track → Track) (tracks : list Track) :
  (∀ t, id (g t) = id t) →
  currentTrack sel (map g tracks) = g <$> currentTrack sel tracks.
Proof.
  intros Hg. unfold currentTrack.
  induction tracks as [|t tracks IH]; [done|].
  cbn [map find]. rewrite Hg. by destruct (bool_decide (id t = sel)).
Qed.

End MixingPanel.

(** X4: with pairwise distinct identifiers, pressing the mute button of a
    strip twice gives back the list, and so does pressing its solo button
    twice. *)
Theorem mute_solo_twice (k : nat) (tracks : list Mixing.Track) :
  NoDup (map Mixing.id tracks) →
  MixingPage.pressMute k (MixingPage.pressMute k tracks) = tracks
  ∧ MixingPage.pressSolo k (MixingPage.pressSolo k tracks) = tracks.
Proof.
  intros Hnd. unfold MixingPage.pressMute, MixingPage.pressSolo.
  destruct (tracks !! k) as [t|] eqn:Hk; [|by rewrite Hk].
  unfold MixingPage.onMuteClick, MixingPage.onSoloClick.
  rewrite !(updateTrack_at k t _ tracks Hnd Hk).
  rewrite !list_lookup_insert_eq by (by eapply lookup_lt_Some).
  split.
  - rewrite (updateTrack_at k _ _ _); cycle 1.
    + by rewrite (insert_keeps_ids k t).
    + apply list_lookup_insert_eq. by eapply lookup_lt_Some.
    + rewrite list_insert_insert_eq, spread_muted_twice. by apply list_insert_id.
  - rewrite (updateTrack_at k _ _ _); cycle 1.
    + by rewrite (insert_keeps_ids k t).
    + apply list_lookup_insert_eq. by eapply lookup_lt_Some.
    + rewrite list_insert_insert_eq, spread_solo_twice. by apply list_insert_id.
Qed.

Lemma initialTracks_distinct : NoDup (map Mixing.id Mixing.initialTracks).
Proof.
  cbn. repeat (apply NoDup_cons; split;
                [intros ?%list_elem_of_In; cbn in *; intuition discriminate|]).
  constructor.
Qed.

Lemma mute_solo_twice_witness :
  MixingPage.pressMute 3 (MixingPage.pressMute 3 Mixing.initialTracks)
    = Mixing.initialTracks
  ∧ MixingPage.pressSolo 3 (MixingPage.pressSolo 3 Mixing.initialTracks)
    = Mixing.initialTracks.
Proof. exact (mute_solo_twice 3 Mixing.initialTracks initialTracks_distinct). Defined.

(** X5: the track shown in the detail panel follows the list: after an
    update that carries no identifier, the selected track is the selected
    track of before with the update applied when it is the updated one, and
    unchanged otherwise; a selection that matched no track still matches
    none. *)
Theorem currentTrack_after_update (selectedTrack i : string)
    (u : Mixing.PartialTrack) (tracks : list Mixing.Track) :
  Mixing.p_id u = None →
  MixingPage.currentTrack selectedTrack (Mixing.updateTrack i u tracks)
  = (λ t, if bool_decide (Mixing.id t = i) then Mixing.spread t u else t)
      <$> MixingPage.currentTrack selectedTrack tracks.
Proof.
  intros Hu. unfold Mixing.updateTrack. apply currentTrack_map.
  intros t. case_bool_decide; [by apply spread_id | done].
Qed.

Lemma currentTrack_after_update_witness :
  MixingPage.currentTrack "3" (Mixing.resetTrack "3" Mixing.initialTracks)
  = (λ t, if bool_decide (Mixing.id t = "3")
          then Mixing.spread t Mixing.resetUpdates else t)
      <$> MixingPage.currentTrack "3" Mixing.initialTracks.
Proof.
  exact (currentTrack_after_update "3" "3" Mixing.resetUpdates Mixing.initialTracks
           eq_refl).
Defined.

(** X6: with pairwise distinct identifiers, a slider of the detail panel
    changes one number of the selected track, found at its position, and
    nothing else: the low, mid and high sliders one EQ band, the reverb,
    delay and compression sliders one effect level. *)
Theorem panel_sliders_change_one_value (k : nat) (current : Mixing.Track)
    (value : number) (tracks : list Mixing.Track) :
  NoDup (map Mixing.id tracks) →
  tracks !! k = Some current →
  let with_eq e := {|
    Mixing.id := Mixing.id current; Mixing.name := Mixing.name current;
    Mixing.color := Mixing.color current; Mixing.volume := Mixing.volume current;
    Mixing.pan := Mixing.pan current; Mixing.muted := Mixing.muted current;
    Mixing.solo := Mixing.solo current; Mixing.eq := e;
    Mixing.effects := Mixing.effects current |} in
  let with_fx e := {|
    Mixing.id := Mixing.id current; Mixing.name := Mixing.name current;
    Mixing.color := Mixing.color current; Mixing.volume := Mixing.volume current;
    Mixing.pan := Mixing.pan current; Mixing.muted := Mixing.muted current;
    Mixing.solo := Mixing.solo current; Mixing.eq := Mixing.eq current;
    Mixing.effects := e |} in
  MixingPage.onEqLowChange current value tracks
    = <[k := with_eq {| Mixing.low := value;
                        Mixing.mid := Mixing.mid (Mixing.eq current);
                        Mixing.high := Mixing.high (Mixing.eq current) |}]> tracks
  ∧ MixingPage.onEqMidChange current value tracks
    = <[k := with_eq {| Mixing.low := Mixing.low (Mixing.eq current);
                        Mixing.mid := value;
                        Mixing.high := Mixing.high (Mixing.eq current) |}]> tracks
  ∧ MixingPage.onEqHighChange current value tracks
    = <[k := with_eq {| Mixing.low := Mixing.low (Mixing.eq current);
                        Mixing.mid := Mixing.mid (Mixing.eq current);
                        Mixing.high := value |}]> tracks
  ∧ MixingPage.onReverbChange current value tracks
    = <[k := with_fx {| Mixing.reverb := value;
                        Mixing.delay := Mixing.delay (Mixing.effects current);
                        Mixing.compression :=
                          Mixing.compression (Mixing.effects current) |}]> tracks
  ∧ MixingPage.onDelayChange current value tracks
    = <[k := with_fx {| Mixing.reverb := Mixing.reverb (Mixing.effects current);
                        Mixing.delay := value;
                        Mixing.compression :=
                          Mixing.compression (Mixing.effects current) |}]> tracks
  ∧ MixingPage.onCompressionChange current value tracks
    = <[k := with_fx {| Mixing.reverb := Mixing.reverb (Mixing.effects current);
                        Mixing.delay := Mixing.delay (Mixing.effects current);
                        Mixing.compression := value |}]> tracks.
Proof.
  intros Hnd Hk. cbn zeta.
  unfold MixingPage.onEqLowChange, MixingPage.onEqMidChange,
    MixingPage.onEqHighChange, MixingPage.onReverbChange,
    MixingPage.onDelayChange, MixingPage.onCompressionChange.
  rewrite !(updateTrack_at k current _ tracks Hnd Hk). done.
Qed.

Lemma panel_sliders_change_one_value_witness :
  ∃ current, Mixing.initialTracks !! 2 = Some current
  ∧ MixingPage.onEqLowChange current 6%float Mixing.initialTracks
    = <[2 := {| Mixing.id := "3"; Mixing.name := "Guitar"; Mixing.color := "#10b981";
                Mixing.volume := 70; Mixing.pan := 25; Mixing.muted := false;
                Mixing.solo := false;
                Mixing.eq := {| Mixing.low := 6; Mixing.mid := 3; Mixing.high := 2 |};
                Mixing.effects := {| Mixing.reverb := 25; Mixing.delay := 15;
                                     Mixing.compression := 20 |} |}%float]>
        Mixing.initialTracks.
Proof.
  eexists. split; [reflexivity|].
  exact (proj1 (panel_sliders_change_one_value 2 _ 6%float Mixing.initialTracks
                  initialTracks_distinct eq_refl)).
Defined.

(** ** The upload list: removal, selection and playback *)

Section StudioRemoval.

Import Studio StudioPage.

Lemma filter_id_twice (i j : string) (l : list AudioFile) :
  filter (λ f, id f ≠ i) (filter (λ f, id f ≠ j) l)
  = filter (λ f, id f ≠ j) (filter (λ f, id f ≠ i) l).
Proof.
  rewrite !list_filter_filter. apply list_filter_iff. intros f. tauto.
Qed.

Lemma filter_id_fresh (i : string) (l : list AudioFile) :
  i ∉ map id l → filter (λ f, id f ≠ i) l = l.
Proof.
  induction l as [|f l IH]; [done|]. cbn [map].
  intros [Hf Hl]%not_elem_of_cons.
  rewrite filter_cons_True by done. f_equal. by apply IH.
Qed.

Lemma isCurrent_false_inv (c : option AudioFile) (i : string) :
  isCurrent c i = false → ∀ f, c = Some f → id f ≠ i.
Proof.
  intros H f ->. cbn in H. by apply bool_decide_eq_false in H.
Qed.

(** A removal touches the selection only when the selected record has the
    identifier. *)
Lemma removeFile_current (i : string) (s : State) :
  currentFile (removeFile i s)
  = (if isCurrent (currentFile s) i then None else currentFile s)
  ∧ isPlaying (removeFile i s)
    = (if isCurrent (currentFile s) i then false else isPlaying s).
Proof. unfold removeFile. by destruct (isCurrent _ _). Qed.

Lemma removeFile_frame (i : string) (s : State) :
  volume (removeFile i s) = volume s
  ∧ isProcessing (removeFile i s) = isProcessing s
  ∧ uploadProgress (removeFile i s) = uploadProgress s.
Proof. unfold removeFile. by destruct (isCurrent _ _). Qed.

Lemma State_eq (s t : State) :
  audioFiles s = audioFiles t → isPlaying s = isPlaying t →
  currentFile s = currentFile t → volume s = volume t →
  isProcessing s = isProcessing t → uploadProgress s = uploadProgress t →
  s = t.
Proof. destruct s, t. cbn. by intros -> -> -> -> -> ->. Qed.

End StudioRemoval.

(** X7: removing an identifier a second time changes nothing, and two
    removals give the same page in either order. *)
Theorem removeFile_idempotent_commute (i j : string) (s : Studio.State) :
  Studio.removeFile i (Studio.removeFile i s) = Studio.removeFile i s
  ∧ Studio.removeFile i (Studio.removeFile j s)
    = Studio.removeFile j (Studio.removeFile i s).
Proof.
  split; apply State_eq;
    repeat match goal with
    | |- context [Studio.audioFiles (Studio.removeFile ?a ?b)] =>
        rewrite (removeFile_audioFiles a b)
    | |- context [Studio.currentFile (Studio.removeFile ?a ?b)] =>
        rewrite (proj1 (removeFile_current a b))
    | |- context [Studio.isPlaying (Studio.removeFile ?a ?b)] =>
        rewrite (proj2 (removeFile_current a b))
    | |- context [Studio.volume (Studio.removeFile ?a ?b)] =>
        rewrite (proj1 (removeFile_frame a b))
    | |- context [Studio.isProcessing (Studio.removeFile ?a ?b)] =>
        rewrite (proj1 (proj2 (removeFile_frame a b)))
    | |- context [Studio.uploadProgress (Studio.removeFile ?a ?b)] =>
        rewrite (proj2 (proj2 (removeFile_frame a b)))
    end;
    try done.
  all: try (by destruct (Studio.isCurrent (Studio.currentFile s) i) eqn:Hi,
                      (Studio.isCurrent (Studio.currentFile s) j) eqn:Hj;
               cbn; rewrite ?Hi, ?Hj).
  - by apply list_filter_filter_l.
  - apply filter_id_twice.
Qed.

(** X8: removing an identifier that no record of the list has and that the
    selected record does not have leaves the page as it is. *)
Theorem removeFile_absent (i : string) (s : Studio.State) :
  i ∉ map Studio.id (Studio.audioFiles s) →
  Studio.isCurrent (Studio.currentFile s) i = false →
  Studio.removeFile i s = s.
Proof.
  intros Hi Hc. unfold Studio.removeFile. rewrite Hc.
  destruct s as [l p c v pr up]. unfold Studio.setAudioFiles. cbn in *.
  by rewrite filter_id_fresh.
Qed.

Lemma removeFile_absent_witness :
  Studio.audioFiles (Studio.state Samples.playingSecond)
    = [Studio.audioFileOf Samples.closeDraws 0 Samples.test1Wav;
       Studio.audioFileOf Samples.closeDraws 1 Samples.test2Wav]
  ∧ Studio.currentFile (Studio.state Samples.playingSecond)
    = Some (Studio.audioFileOf Samples.closeDraws 1 Samples.test2Wav)
  ∧ Studio.removeFile "q7w1e5r9t" (Studio.state Samples.playingSecond)
    = Studio.state Samples.playingSecond.
Proof.
  split; [reflexivity|]. split; [reflexivity|].
  apply removeFile_absent; [|reflexivity].
  intros H%list_elem_of_In. cbn in H. intuition discriminate.
Defined.

(** X9: dropping one file and then removing the record it made gives back
    the page, when the identifier drawn for the record is not yet in the
    list and is not the selected record's. *)
Theorem drop_then_remove (random36 : nat → string) (f : File.t) (s : Studio.Session) :
  Studio.randomId random36 (Studio.draws s)
    ∉ map Studio.id (Studio.audioFiles (Studio.state s)) →
  Studio.isCurrent (Studio.currentFile (Studio.state s))
    (Studio.randomId random36 (Studio.draws s)) = false →
  Studio.removeFile (Studio.randomId random36 (Studio.draws s))
    (Studio.state (Studio.onDrop random36 [f] s))
  = Studio.state s.
Proof.
  intros Hfresh Hc. destruct s as [[l p c v pr up] d]. cbn in *.
  unfold Studio.removeFile, Studio.setAudioFiles. cbn. rewrite Hc. cbn.
  rewrite filter_app, filter_id_fresh by done.
  rewrite filter_cons_False by (cbn; tauto). cbn.
  by rewrite app_nil_r.
Qed.

Lemma drop_then_remove_witness :
  Studio.removeFile (Studio.randomId Samples.closeDraws 0)
    (Studio.state (Studio.onDrop Samples.closeDraws [Samples.testWav] Studio.start))
  = Studio.initial.
Proof.
  apply (drop_then_remove Samples.closeDraws Samples.testWav Studio.start);
    [|reflexivity].
  cbn. apply not_elem_of_nil.
Defined.

Section StudioInvariant.

Import Studio StudioPage.

Variable random36 : nat → string.

Lemma step_consistent (e : Event) (s s' : Session) :
  consistent s → step random36 e s = Some s' → consistent s'.
Proof.
  intros (Hc & Hp & Hl) Hstep. destruct e as [files | k | k | k | v];
    cbn [step] in Hstep.
  - injection Hstep as <-.
    destruct (onDrop_audioFiles random36 files s) as [Hf Hd].
    destruct (onDrop_other_fields random36 files s) as [Hpl Hcu].
    unfold consistent. rewrite Hf, Hd, Hpl, Hcu, length_app, length_imap.
    split; [|split; [done | lia]].
    intros c Hcur. apply elem_of_app. left. by apply Hc.
  - destruct (audioFiles (state s) !! k) as [file|] eqn:Hk; [|done].
    injection Hstep as <-. unfold consistent. cbn. split; [|split; [|done]].
    + intros c [= <-]. by eapply list_elem_of_lookup_2.
    + by intros _.
  - destruct (audioFiles (state s) !! k) as [file|] eqn:Hk; [|done].
    injection Hstep as <-. unfold consistent. cbn. split; [|split; [|done]].
    + intros c [= <-]. by eapply list_elem_of_lookup_2.
    + by intros _.
  - destruct (audioFiles (state s) !! k) as [file|] eqn:Hk; [|done].
    injection Hstep as <-. unfold consistent. cbn [state draws onState].
    rewrite removeFile_audioFiles.
    destruct (removeFile_current (id file) (state s)) as [-> ->].
    destruct (isCurrent (currentFile (state s)) (id file)) eqn:Hcur.
    + split; [done|]. split; [done|].
      etrans; [apply length_filter | done].
    + split; [|split; [done|]].
      * intros c Hcf. apply list_elem_of_filter. split; [|by apply Hc].
        by eapply isCurrent_false_inv.
      * etrans; [apply length_filter | done].
  - injection Hstep as <-. done.
Qed.

End StudioInvariant.

(** X10: whatever is dropped, clicked, played or removed on the Studio
    page, the selected record is one of the records of the list, playback
    is on only while a record is selected, and the list holds no more
    records than identifiers were drawn. *)
Theorem studio_selection_consistent (random36 : nat → string) (s : Studio.Session) :
  StudioPage.reachable random36 s →
  (∀ c, Studio.currentFile (Studio.state s) = Some c →
        c ∈ Studio.audioFiles (Studio.state s))
  ∧ (Studio.isPlaying (Studio.state s) = true →
     is_Some (Studio.currentFile (Studio.state s)))
  ∧ (length (Studio.audioFiles (Studio.state s)) ≤ Studio.draws s)%nat.
Proof.
  induction 1 as [|s s' e _ IH Hstep].
  - split; [done|]. split; [done|]. cbn. lia.
  - exact (step_consistent random36 e s s' IH Hstep).
Qed.

Lemma studio_selection_consistent_witness :
  StudioPage.reachable Samples.closeDraws Samples.playingSecond
  ∧ ((∀ c, Studio.currentFile (Studio.state Samples.playingSecond) = Some c →
           c ∈ Studio.audioFiles (Studio.state Samples.playingSecond))
     ∧ (Studio.isPlaying (Studio.state Samples.playingSecond) = true →
        is_Some (Studio.currentFile (Studio.state Samples.playingSecond)))
     ∧ (length (Studio.audioFiles (Studio.state Samples.playingSecond))
        ≤ Studio.draws Samples.playingSecond)%nat).
Proof.
  assert (H : StudioPage.reachable Samples.closeDraws Samples.playingSecond).
  { eapply StudioPage.reachable_step with (e := StudioPage.ClickPlay 1).
    - eapply StudioPage.reachable_step
        with (e := StudioPage.Drop [Samples.test1Wav; Samples.test2Wav]).
      + apply StudioPage.reachable_start.
      + reflexivity.
    - reflexivity. }
  split; [exact H|].
  exact (studio_selection_consistent Samples.closeDraws Samples.playingSecond H).
Defined.

(** X11: the simulated analysis of the Studio page does nothing with no
    record selected. With one selected it shows the progress values 0, 10,
    ..., 100 with the processing flag on and the button disabled, and ends
    with the flag off and the progress back at 0; the list, the selection,
    the playback flag and the volume are the same in every state it goes
    through. *)
Theorem studio_analysis_simulation (s : Studio.State) :
  (Studio.currentFile s = None → StudioPage.handleAnalyze s = [])
  ∧ (is_Some (Studio.currentFile s) →
     map Studio.uploadProgress (StudioPage.handleAnalyze s)
       = [0; 10; 20; 30; 40; 50; 60; 70; 80; 90; 100; 0]%float
     ∧ map Studio.isProcessing (StudioPage.handleAnalyze s)
       = replicate 11 true ++ [false]
     ∧ map StudioPage.analyzeEnabled (StudioPage.handleAnalyze s)
       = replicate 11 false ++ [true]
     ∧ Forall (λ s', Studio.audioFiles s' = Studio.audioFiles s
                     ∧ Studio.currentFile s' = Studio.currentFile s
                     ∧ Studio.isPlaying s' = Studio.isPlaying s
                     ∧ Studio.volume s' = Studio.volume s)
              (StudioPage.handleAnalyze s)).
Proof.
  unfold StudioPage.handleAnalyze. split.
  - by intros ->.
  - intros [c Hc]. rewrite Hc.
    change StudioPage.progressValues
      with [0; 10; 20; 30; 40; 50; 60; 70; 80; 90; 100]%float.
    unfold StudioPage.analyzeEnabled. cbn. rewrite Hc.
    repeat split. repeat (constructor; [done|]). constructor.
Qed.

(** ** The component's handlers: requests, markers and downloads *)

Section HandlerEffects.

Import Axios AudioProcessor.

Variable wavesurfer : option WaveSurfer.

(** The markers drawn for a list of beats are those of a prefix of the
    list, and of all of it when no call throws. *)
Lemma drawMarkers_effects (w : WaveSurfer) (beats : list number) (s : State) :
  ∃ r l,
    forEach beats (λ beat,
      ws_addMarker w {| time := beat; color := "#ff0000"; position := "top" |}) s
    = (r, s, l)
    ∧ l `prefix_of`
        map (λ beat, AddMarker {| time := beat; color := "#ff0000"; position := "top" |})
            beats
    ∧ (r = Normal tt →
       l = map (λ beat,
                  AddMarker {| time := beat; color := "#ff0000"; position := "top" |})
               beats)
    ∧ (r = Normal tt ∨ r = Throw (WidgetError "addMarker"))
    ∧ ((∀ m, addMarker_ok w m = true) → r = Normal tt).
Proof.
  induction beats as [|b beats (r & l & IH & Hpre & Hall & Hr & Hok)].
  - exists (Normal tt), []. by repeat split; [| left].
  - cbn [forEach map]. unfold mbind, M_bind, bind, ws_addMarker at 1.
    destruct (addMarker_ok w _) eqn:Hb.
    + cbn. rewrite IH. eexists r, _. split; [done|].
      split; [by apply prefix_cons|]. split; [|by split].
      intros Hn. by rewrite (Hall Hn).
    + cbn. eexists _, []. split; [done|]. split; [apply prefix_nil|].
      split; [done|]. split; [by right|].
      intros Hall'. by rewrite Hall' in Hb.
Qed.

Lemma AddMarker_no_post (l : list Effect) (beats : list number) :
  l `prefix_of`
    map (λ beat, AddMarker {| time := beat; color := "#ff0000"; position := "top" |})
        beats →
  Forall (λ e, ∀ r, e ≠ HttpPost r) l.
Proof.
  intros [k Hk]. apply Forall_forall. intros e He r ->.
  assert (Hin : HttpPost r ∈ l ++ k) by (apply elem_of_app; by left).
  rewrite <- Hk in Hin. apply list_elem_of_fmap in Hin as (b & Hb & _). done.
Qed.

(** The effects of [handleAnalyze] after its request was fulfilled. *)
Lemma handleAnalyze_resume_effects (data : AudioAnalysis) (s : State) :
  ∃ l,
    l `prefix_of`
      map (λ beat, AddMarker {| time := beat; color := "#ff0000"; position := "top" |})
          (Api.beats data)
    ∧ ((run (handleAnalyze_resume wavesurfer (Fulfilled data)) s).2 = l
       ∨ (run (handleAnalyze_resume wavesurfer (Fulfilled data)) s).2
         = l ++ [ConsoleError (WidgetError "addMarker")])
    ∧ (wavesurfer = None → l = [])
    ∧ ((∀ w, wavesurfer = Some w → ∀ m, addMarker_ok w m = true) →
       (run (handleAnalyze_resume wavesurfer (Fulfilled data)) s).2
       = match wavesurfer with
         | Some _ =>
             map (λ beat,
                    AddMarker {| time := beat; color := "#ff0000"; position := "top" |})
                 (Api.beats data)
         | None => []
         end).
Proof.
  unfold handleAnalyze_resume, run, finally, tryCatch, await.
  unfold mbind, M_bind, bind, ret, update, emit.
  destruct wavesurfer as [w|].
  - cbn -[forEach ws_addMarker setAnalysis setLoading setError].
    match goal with
    | |- context [forEach _ _ ?s0] =>
        destruct (drawMarkers_effects w (Api.beats data) s0)
          as (r & l & -> & Hpre & Hall & [-> | ->] & Hok)
    end.
    + exists l. cbn. rewrite !app_nil_r. split; [done|]. split; [by left|].
      split; [done|]. intros _. by apply Hall.
    + exists l. cbn. rewrite !app_nil_r. split; [done|]. split; [by right|].
      split; [done|]. intros Hall'. by specialize (Hok (Hall' w eq_refl)).
  - exists []. cbn. split; [apply prefix_nil|]. split; [by left|]. done.
Qed.

End HandlerEffects.

Section HandlerRuns.

Import Axios AudioProcessor.

Variable wavesurfer : option WaveSurfer.

Lemma handleAnalyze_selected_effects (backend : Request → HttpReply AudioAnalysis)
    (s : State) (f : File.t) :
  file1 s = Some f →
  (run (handleAnalyze wavesurfer backend) s).2
  = HttpPost (analyzeRequest f)
    :: (run (handleAnalyze_resume wavesurfer (settle (backend (analyzeRequest f))))
            (setError None (setLoading true s))).2.
Proof.
  intros Hf. unfold handleAnalyze, run, handleAnalyze_begin.
  unfold mbind, M_bind, bind, update, emit, ret. rewrite Hf.
  cbn -[handleAnalyze_resume setLoading setError].
  by destruct (handleAnalyze_resume _ _ _) as [[r s'] l].
Qed.

Lemma handleCreateTransition_selected (backend : Request → HttpReply Blob.t)
    (s : State) (f1 f2 : File.t) :
  file1 s = Some f1 → file2 s = Some f2 →
  run (handleCreateTransition wavesurfer backend) s
  = ((run (handleCreateTransition_resume wavesurfer
             (settle (backend (transitionRequest f1 f2 (transitionStyle s)))))
          (setError None (setLoading true s))).1,
     HttpPost (transitionRequest f1 f2 (transitionStyle s))
     :: (run (handleCreateTransition_resume wavesurfer
                (settle (backend (transitionRequest f1 f2 (transitionStyle s)))))
             (setError None (setLoading true s))).2).
Proof.
  intros Hf1 Hf2. unfold handleCreateTransition, run, handleCreateTransition_begin.
  unfold mbind, M_bind, bind, update, emit, ret. rewrite Hf1, Hf2.
  cbn -[handleCreateTransition_resume setLoading setError].
  by destruct (handleCreateTransition_resume _ _ _) as [[r s'] l].
Qed.

End HandlerRuns.

(** X12: a run of [handleAnalyze] with a file selected issues exactly one
    request, before anything else: a POST to the analysis URL whose form
    holds the one field [file] with the selected file. When the request is
    fulfilled and the widget draws, the markers follow, one for each beat
    of the result in its order, red and at the top; with no widget there
    is none; a rejected request draws none and is logged. *)
Theorem handleAnalyze_request_and_markers
    (wavesurfer : option AudioProcessor.WaveSurfer)
    (backend : Axios.Request → Axios.HttpReply AudioProcessor.AudioAnalysis)
    (s : AudioProcessor.State) (f : File.t) :
  AudioProcessor.file1 s = Some f →
  let outcome := Axios.settle (backend (AudioProcessor.analyzeRequest f)) in
  let marker beat :=
    AudioProcessor.AddMarker
      {| AudioProcessor.time := beat; AudioProcessor.color := "#ff0000";
         AudioProcessor.position := "top" |} in
  Axios.method (AudioProcessor.analyzeRequest f) = Axios.POST
  ∧ Axios.data (AudioProcessor.analyzeRequest f) = [("file", Axios.EntryFile f)]
  ∧ (∃ rest,
       (AudioProcessor.run (AudioProcessor.handleAnalyze wavesurfer backend) s).2
       = AudioProcessor.HttpPost (AudioProcessor.analyzeRequest f) :: rest
       ∧ Forall (λ e, ∀ r, e ≠ AudioProcessor.HttpPost r) rest
       ∧ (∀ e, outcome = Axios.Rejected e →
            rest = [AudioProcessor.ConsoleError (AudioProcessor.RequestError e)])
       ∧ (∀ data, outcome = Axios.Fulfilled data →
            (∀ w, wavesurfer = Some w → ∀ m, AudioProcessor.addMarker_ok w m = true) →
            rest = match wavesurfer with
                   | Some _ => map marker (Api.beats data)
                   | None => []
                   end)).
Proof.
  intros Hf. cbn zeta. split; [done|]. split; [done|].
  rewrite (handleAnalyze_selected_effects _ _ _ _ Hf).
  eexists. split; [reflexivity|].
  destruct (Axios.settle (backend (AudioProcessor.analyzeRequest f))) as [data | e].
  - destruct (handleAnalyze_resume_effects wavesurfer data
                (AudioProcessor.setError None (AudioProcessor.setLoading true s)))
      as (l & Hpre & Hl & _ & Hok).
    split; [|split; [done|]].
    + pose proof (AddMarker_no_post l _ Hpre) as Hno.
      destruct Hl as [-> | ->]; [done|].
      apply Forall_app. split; [done|]. by repeat constructor.
    + intros ? [= <-] Hall. by apply Hok.
  - rewrite handleAnalyze_resume_rejected. cbn. split; [by repeat constructor|].
    split; [|done]. by intros ? [= <-].
Qed.

Lemma handleAnalyze_request_and_markers_witness :
  (AudioProcessor.run
     (AudioProcessor.handleAnalyze (Some Samples.markerWidget)
        (Mocks.intercept Mocks.analyzeHandler))
     (AudioProcessor.setFile1 (Some Samples.testWav) AudioProcessor.initial)).2
  = AudioProcessor.HttpPost (AudioProcessor.analyzeRequest Samples.testWav)
    :: map (λ beat,
              AudioProcessor.AddMarker
                {| AudioProcessor.time := beat; AudioProcessor.color := "#ff0000";
                   AudioProcessor.position := "top" |})
           [0.5; 1; 1.5; 2]%float.
Proof.
  destruct (handleAnalyze_request_and_markers (Some Samples.markerWidget)
              (Mocks.intercept Mocks.analyzeHandler)
              (AudioProcessor.setFile1 (Some Samples.testWav) AudioProcessor.initial)
              Samples.testWav eq_refl) as (_ & _ & rest & -> & _ & _ & Hok).
  f_equal. apply (Hok Mocks.analysisPayload eq_refl).
  intros w [= <-] m. reflexivity.
Defined.

(** X13: a run of [handleCreateTransition] with both files selected posts
    the two files and the selected style and then, by the outcome: a
    rejected request sets "Failed to create transition" and neither loads
    nor downloads anything; a fulfilled one whose audio the widget loads
    (or with no widget) downloads it as "transition.wav" and shows no
    message; when the widget's load throws, the message is set and nothing
    is downloaded. The loading flag ends off, and the files, the stored
    analysis and the style are untouched. *)
Theorem handleCreateTransition_outcomes
    (wavesurfer : option AudioProcessor.WaveSurfer)
    (backend : Axios.Request → Axios.HttpReply Blob.t)
    (s : AudioProcessor.State) (f1 f2 : File.t) :
  AudioProcessor.file1 s = Some f1 →
  AudioProcessor.file2 s = Some f2 →
  let req := AudioProcessor.transitionRequest f1 f2 (AudioProcessor.transitionStyle s) in
  let failed :=
    AudioProcessor.setLoading false
      (AudioProcessor.setError (Some "Failed to create transition")
         (AudioProcessor.setError None (AudioProcessor.setLoading true s))) in
  let done_ :=
    AudioProcessor.setLoading false
      (AudioProcessor.setError None (AudioProcessor.setLoading true s)) in
  Axios.data req
    = [("file1", Axios.EntryFile f1); ("file2", Axios.EntryFile f2);
       ("style", Axios.EntryString (AudioProcessor.transitionStyle s))]
  ∧ AudioProcessor.run (AudioProcessor.handleCreateTransition wavesurfer backend) s
    = match Axios.settle (backend req), wavesurfer with
      | Axios.Rejected e, _ =>
          (failed,
           [AudioProcessor.HttpPost req;
            AudioProcessor.ConsoleError (AudioProcessor.RequestError e)])
      | Axios.Fulfilled blob, None =>
          (done_,
           [AudioProcessor.HttpPost req;
            AudioProcessor.CreateObjectURL (AudioProcessor.OfBlob blob);
            AudioProcessor.Download (AudioProcessor.OfBlob blob) "transition.wav"])
      | Axios.Fulfilled blob, Some w =>
          if AudioProcessor.load_ok w (AudioProcessor.OfBlob blob)
          then
            (done_,
             [AudioProcessor.HttpPost req;
              AudioProcessor.CreateObjectURL (AudioProcessor.OfBlob blob);
              AudioProcessor.Load (AudioProcessor.OfBlob blob);
              AudioProcessor.Download (AudioProcessor.OfBlob blob) "transition.wav"])
          else
            (failed,
             [AudioProcessor.HttpPost req;
              AudioProcessor.CreateObjectURL (AudioProcessor.OfBlob blob);
              AudioProcessor.ConsoleError (AudioProcessor.WidgetError "load")])
      end.
Proof.
  intros Hf1 Hf2. cbn zeta. split; [done|].
  rewrite (handleCreateTransition_selected _ _ _ _ _ Hf1 Hf2).
  destruct (Axios.settle _) as [blob | e]; [|done].
  destruct wavesurfer as [w|]; [|done].
  unfold AudioProcessor.handleCreateTransition_resume, AudioProcessor.run,
    AudioProcessor.finally, AudioProcessor.tryCatch, AudioProcessor.await.
  unfold mbind, AudioProcessor.M_bind, AudioProcessor.bind, AudioProcessor.update,
    AudioProcessor.emit, AudioProcessor.ret, AudioProcessor.ws_load,
    AudioProcessor.throw.
  by destruct (AudioProcessor.load_ok w (AudioProcessor.OfBlob blob)).
Qed.

Lemma handleCreateTransition_outcomes_witness :
  AudioProcessor.run
    (AudioProcessor.handleCreateTransition (Some Samples.markerWidget)
       (Mocks.intercept Mocks.transitionHandler))
    Samples.twoFiles
  = (Samples.twoFiles,
     [AudioProcessor.HttpPost
        (AudioProcessor.transitionRequest Samples.test1Wav Samples.test2Wav "smooth");
      AudioProcessor.CreateObjectURL (AudioProcessor.OfBlob Mocks.audioBlob);
      AudioProcessor.Load (AudioProcessor.OfBlob Mocks.audioBlob);
      AudioProcessor.Download (AudioProcessor.OfBlob Mocks.audioBlob) "transition.wav"]).
Proof.
  exact (proj2 (handleCreateTransition_outcomes (Some Samples.markerWidget)
                  (Mocks.intercept Mocks.transitionHandler) Samples.twoFiles
                  Samples.test1Wav Samples.test2Wav eq_refl eq_refl)).
Defined.

(** ** The component over time: messages and file slots *)

Section ComponentInvariants.

Import Axios AudioProcessor.

Variable wavesurfer : option WaveSurfer.

Lemma started_state (p : Pending) (c : M (option Request)) (ui : UI) :
  st (started p c ui) = (c (st ui)).1.2.
Proof.
  unfold started. destruct (c (st ui)) as [[[[r|]|e] s'] l]; reflexivity.
Qed.

Lemma handleAnalyze_begin_state (s : State) :
  (handleAnalyze_begin s).1.2 = s
  ∨ (handleAnalyze_begin s).1.2 = setError None (setLoading true s).
Proof.
  unfold handleAnalyze_begin. destruct (file1 s); [by right | by left].
Qed.

Lemma handleCreateTransition_begin_state (s : State) :
  (handleCreateTransition_begin s).1.2 = s
  ∨ (handleCreateTransition_begin s).1.2 = setError None (setLoading true s).
Proof.
  unfold handleCreateTransition_begin.
  destruct (file1 s), (file2 s); (by right) || (by left).
Qed.

Lemma handleAnalyze_resume_state (r : Settled AudioAnalysis) (s : State) :
  ∃ a e, (run (handleAnalyze_resume wavesurfer r) s).1
         = setLoading false (setError e (setAnalysis a s))
       ∧ (e = error s ∨ e = Some "Failed to analyze audio").
Proof.
  destruct r as [data | x].
  - destruct (handleAnalyze_resume_fulfilled wavesurfer data s) as [-> | ->].
    + exists (Some data), (error s). split; [by destruct s | by left].
    + exists (Some data), (Some "Failed to analyze audio"). split; [done | by right].
  - rewrite handleAnalyze_resume_rejected.
    exists (analysis s), (Some "Failed to analyze audio").
    split; [by destruct s | by right].
Qed.

(** What an event does to the two slots and to the message. *)
Lemma step_slots_and_message (e : Event) (ui ui' : UI) :
  step wavesurfer e ui = Some ui' →
  (file1 (st ui') = file1 (st ui)
   ∨ ∃ f w, e = FileChosen (Some f) true ∧ wavesurfer = Some w
            ∧ file1 (st ui') = Some f)
  ∧ (file2 (st ui') = file2 (st ui)
     ∨ ∃ f w, e = FileChosen (Some f) false ∧ wavesurfer = Some w
              ∧ file2 (st ui') = Some f)
  ∧ (error (st ui') = error (st ui)
     ∨ error (st ui') = None
     ∨ error (st ui') = Some "Failed to analyze audio"
     ∨ error (st ui') = Some "Failed to create transition").
Proof.
  intros Hstep. destruct ui as [s fl].
  destruct e as [| | reply | reply | file isFirst | style | v | |];
    cbn [step st inflight] in Hstep.
  - destruct (analyzeDisabled (render s)); [done|]. injection Hstep as <-.
    rewrite started_state. cbn [st].
    destruct (handleAnalyze_begin_state s) as [-> | ->]; cbn; (split; [|split]); auto 6.
  - destruct (transitionDisabled (render s)); [done|]. injection Hstep as <-.
    rewrite started_state. cbn [st].
    destruct (handleCreateTransition_begin_state s) as [-> | ->]; cbn; (split; [|split]); auto 6.
  - destruct (settleOne AwaitsAnalysis fl); [|done]. injection Hstep as <-.
    cbn [st].
    destruct (handleAnalyze_resume_state (settle reply) s) as (a & x & -> & [-> | ->]);
      cbn; (split; [|split]); auto 6.
  - destruct (settleOne AwaitsTransition fl); [|done]. injection Hstep as <-.
    cbn [st].
    destruct (handleCreateTransition_resume_state wavesurfer (settle reply) s)
      as [-> | ->]; cbn; (split; [|split]); auto 6.
  - injection Hstep as <-. cbn [st].
    unfold handleFileChange, run.
    destruct file as [f|], wavesurfer as [w|]; cbn;
      try (by (split; [|split]); auto 6).
    unfold mbind, M_bind, bind, update, emit, ret, ws_load, throw.
    destruct (load_ok w (OfFile f)); cbn; try (by (split; [|split]); auto 6).
    destruct isFirst; cbn.
    + split; [right; by exists f, w | auto].
    + split; [by left|]. split; [right; by exists f, w | auto].
  - injection Hstep as <-. cbn. (split; [|split]); auto 6.
  - injection Hstep as <-. cbn. (split; [|split]); auto 6.
  - injection Hstep as <-. cbn. (split; [|split]); auto 6.
  - injection Hstep as <-. cbn. (split; [|split]); auto 6.
Qed.

End ComponentInvariants.

(** X14: the message the component shows is never anything else than one
    of the two fixed strings: in every state it can reach, there is no
    message, or it is "Failed to analyze audio", or it is "Failed to
    create transition". *)
Theorem component_messages (wavesurfer : option AudioProcessor.WaveSurfer)
    (ui : AudioProcessor.UI) :
  AudioProcessor.reachable wavesurfer ui →
  AudioProcessor.error (AudioProcessor.st ui) = None
  ∨ AudioProcessor.error (AudioProcessor.st ui) = Some "Failed to analyze audio"
  ∨ AudioProcessor.error (AudioProcessor.st ui) = Some "Failed to create transition".
Proof.
  induction 1 as [|ui ui' e _ IH Hstep]; [by left|].
  destruct (step_slots_and_message wavesurfer e ui ui' Hstep)
    as (_ & _ & [-> | [-> | [-> | ->]]]); auto.
Qed.

Lemma component_messages_witness :
  AudioProcessor.reachable (Some Samples.markerWidget) Samples.analysisFailed
  ∧ (AudioProcessor.error (AudioProcessor.st Samples.analysisFailed) = None
     ∨ AudioProcessor.error (AudioProcessor.st Samples.analysisFailed)
       = Some "Failed to analyze audio"
     ∨ AudioProcessor.error (AudioProcessor.st Samples.analysisFailed)
       = Some "Failed to create transition").
Proof.
  assert (H : AudioProcessor.reachable (Some Samples.markerWidget)
                Samples.analysisFailed).
  { eapply AudioProcessor.reachable_step
      with (e := AudioProcessor.AnalysisSettles Axios.NetworkFailure).
    - eapply AudioProcessor.reachable_step with (e := AudioProcessor.ClickAnalyze).
      + eapply AudioProcessor.reachable_step
          with (e := AudioProcessor.FileChosen (Some Samples.testWav) true).
        * apply AudioProcessor.reachable_mounted.
        * reflexivity.
      + reflexivity.
    - reflexivity. }
  split; [exact H | exact (component_messages _ _ H)].
Defined.

(** X15: a file slot, once filled, is never emptied, and the only event that
    changes a slot is the choice of a file for that slot with the widget
    mounted. *)
Theorem slots_only_filled (wavesurfer : option AudioProcessor.WaveSurfer)
    (e : AudioProcessor.Event) (ui ui' : AudioProcessor.UI) :
  AudioProcessor.step wavesurfer e ui = Some ui' →
  (is_Some (AudioProcessor.file1 (AudioProcessor.st ui)) →
   is_Some (AudioProcessor.file1 (AudioProcessor.st ui')))
  ∧ (is_Some (AudioProcessor.file2 (AudioProcessor.st ui)) →
     is_Some (AudioProcessor.file2 (AudioProcessor.st ui')))
  ∧ (AudioProcessor.file1 (AudioProcessor.st ui')
       ≠ AudioProcessor.file1 (AudioProcessor.st ui) →
     ∃ f, e = AudioProcessor.FileChosen (Some f) true ∧ is_Some wavesurfer)
  ∧ (AudioProcessor.file2 (AudioProcessor.st ui')
       ≠ AudioProcessor.file2 (AudioProcessor.st ui) →
     ∃ f, e = AudioProcessor.FileChosen (Some f) false ∧ is_Some wavesurfer).
Proof.
  intros Hstep.
  destruct (step_slots_and_message wavesurfer e ui ui' Hstep)
    as (H1 & H2 & _).
  repeat split.
  - destruct H1 as [-> | (f & w & _ & _ & ->)]; eauto.
  - destruct H2 as [-> | (f & w & _ & _ & ->)]; eauto.
  - intros Hne. destruct H1 as [? | (f & w & -> & -> & _)]; [done | eauto].
  - intros Hne. destruct H2 as [? | (f & w & -> & -> & _)]; [done | eauto].
Qed.

Lemma slots_only_filled_witness :
  is_Some (AudioProcessor.file1 (AudioProcessor.st Samples.analyzing)).
Proof.
  refine (proj1 (slots_only_filled (Some Samples.markerWidget)
                   AudioProcessor.ClickAnalyze
                   {| AudioProcessor.st :=
                        AudioProcessor.setFile1 (Some Samples.testWav)
                          AudioProcessor.initial;
                      AudioProcessor.inflight := [] |}
                   Samples.analyzing eq_refl) _).
  by eexists.
Defined.

(** X16: a component whose widget was not created can do nothing: in every
    state it can reach both slots are empty, both buttons are disabled, no
    request is in flight, and there is neither a result nor a message. *)
Theorem no_widget_no_workflow (ui : AudioProcessor.UI) :
  AudioProcessor.reachable None ui →
  AudioProcessor.file1 (AudioProcessor.st ui) = None
  ∧ AudioProcessor.file2 (AudioProcessor.st ui) = None
  ∧ AudioProcessor.analyzeDisabled (AudioProcessor.render (AudioProcessor.st ui)) = true
  ∧ AudioProcessor.transitionDisabled (AudioProcessor.render (AudioProcessor.st ui))
    = true
  ∧ AudioProcessor.inflight ui = []
  ∧ AudioProcessor.loading (AudioProcessor.st ui) = false
  ∧ AudioProcessor.analysis (AudioProcessor.st ui) = None
  ∧ AudioProcessor.error (AudioProcessor.st ui) = None.
Proof.
  induction 1 as [|ui ui' e _ IH Hstep]; [done|].
  destruct IH as (H1 & H2 & Ha & Ht & Hfl & Hl & Han & He).
  destruct ui as [s fl]. cbn [AudioProcessor.st AudioProcessor.inflight] in *.
  destruct e as [| | reply | reply | file isFirst | style | v | |];
    cbn [AudioProcessor.step AudioProcessor.st AudioProcessor.inflight] in Hstep.
  - by rewrite Ha in Hstep.
  - by rewrite Ht in Hstep.
  - by rewrite Hfl in Hstep.
  - by rewrite Hfl in Hstep.
  - injection Hstep as <-.
    assert (Hs : (AudioProcessor.run (AudioProcessor.handleFileChange None file isFirst)
                    s).1 = s) by (by destruct file).
    cbn [AudioProcessor.st AudioProcessor.inflight]. rewrite Hs. done.
  - injection Hstep as <-. cbn in *. by rewrite H1, H2, Hl.
  - injection Hstep as <-. cbn in *. by rewrite H1, H2, Hl.
  - injection Hstep as <-. cbn in *. by rewrite H1, H2, Hl.
  - injection Hstep as <-. cbn in *. by rewrite H1, H2, Hl.
Qed.

Lemma no_widget_no_workflow_witness :
  AudioProcessor.reachable None Samples.quieter
  ∧ AudioProcessor.file1 (AudioProcessor.st Samples.quieter) = None
  ∧ AudioProcessor.analyzeDisabled
      (AudioProcessor.render (AudioProcessor.st Samples.quieter)) = true.
Proof.
  assert (H : AudioProcessor.reachable None Samples.quieter).
  { eapply AudioProcessor.reachable_step
      with (e := AudioProcessor.VolumeChanged 0.5%float).
    - eapply AudioProcessor.reachable_step
        with (e := AudioProcessor.FileChosen (Some Samples.testWav) true).
      + apply AudioProcessor.reachable_mounted.
      + reflexivity.
    - reflexivity. }
  split; [exact H|].
  destruct (no_widget_no_workflow Samples.quieter H) as (H1 & _ & Ha & _).
  split; [exact H1 | exact Ha].
Defined.

(** ** The service layer: URLs and forms *)

Section ServiceRequests.

Import Axios Api.

Lemma API_BASE_URL_nonempty (env : option string) :
  String.eqb (API_BASE_URL env) "" = false.
Proof.
  unfold API_BASE_URL. destruct env as [v|]; [|done].
  by destruct (String.eqb v "") eqn:Hv.
Qed.

Lemma api_post_fullURL (env : option string) (path rest : string)
    (fd : FormData) (rt : ResponseType) :
  path = String "/" rest → String.prefix "/" rest = false →
  fullURL (api_post env path fd rt)
  = dropTrailingSlash (API_BASE_URL env) +:+ "/" +:+ dropLeadingSlashes rest.
Proof.
  intros -> Hrest. unfold fullURL, buildFullPath. cbn [baseURL url api_post].
  rewrite API_BASE_URL_nonempty.
  assert (Habs : isAbsoluteURL (String "/" rest) = false).
  { unfold isAbsoluteURL.
    change (String.prefix "//" (String "/" rest)) with (String.prefix "/" rest).
    rewrite Hrest. reflexivity. }
  rewrite Habs. reflexivity.
Qed.

Lemma dropTrailingSlash_cons (c : ascii) (s : string) :
  dropTrailingSlash (String c s)
  = if Ascii.eqb c "/" && (String.eqb s "" || String.eqb s "/")
    then ""
    else String c (dropTrailingSlash s).
Proof.
  destruct (Ascii.eqb_spec c "/") as [-> | Hc].
  - destruct s as [|c' s']; [done|].
    destruct c' as [[] [] [] [] [] [] [] []]; destruct s'; reflexivity.
  - cbn [andb].
    destruct c as [[] [] [] [] [] [] [] []]; try reflexivity. done.
Qed.

(** A string that ends in no slash is left as it is. *)
Lemma dropTrailingSlash_plain (b : string) :
  (∀ b', b ≠ b' +:+ "/") → dropTrailingSlash b = b.
Proof.
  induction b as [|c b IH]; intros Hb; [done|].
  rewrite dropTrailingSlash_cons.
  assert (Hb' : ∀ b', b ≠ b' +:+ "/").
  { intros b' ->. by apply (Hb (String c b')). }
  destruct (Ascii.eqb_spec c "/") as [-> | Hc]; cbn [andb].
  - destruct (String.eqb_spec b "") as [-> | Hne]; [by destruct (Hb "")|].
    destruct (String.eqb_spec b "/") as [-> | Hne']; [by destruct (Hb "/")|].
    cbn. by rewrite IH.
  - by rewrite IH.
Qed.

(** One slash at the end is cut. *)
Lemma dropTrailingSlash_one (b : string) :
  (∀ b', b ≠ b' +:+ "/") → dropTrailingSlash (b +:+ "/") = b.
Proof.
  induction b as [|c b IH]; intros Hb; [done|].
  change (String c b +:+ "/") with (String c (b +:+ "/")).
  rewrite dropTrailingSlash_cons.
  assert (Hb' : ∀ b', b ≠ b' +:+ "/").
  { intros b' ->. by apply (Hb (String c b')). }
  destruct (Ascii.eqb_spec c "/") as [-> | Hc]; cbn [andb].
  - destruct (String.eqb_spec (b +:+ "/") "") as [Heq | _]; [by destruct b|].
    destruct (String.eqb_spec (b +:+ "/") "/") as [Heq | _].
    + destruct b as [|c' b]; [by destruct (Hb "")|].
      injection Heq as _ Heq. by destruct b.
    + cbn. by rewrite IH.
  - by rewrite IH.
Qed.

End ServiceRequests.

(** X17: the base URL is never empty: an unset variable and an empty one
    both give "http://localhost:8000", any other value is taken as it is.
    Each of the three requests of the service layer is a POST of a
    multipart form with a 30 s time-out, with that base URL and a path
    under [/api]. When the base URL ends in no slash, or in one, the
    request goes to the base URL without that slash followed by the path. *)
Theorem api_request_urls (env : option string) (f f' : File.t)
    (ts : Api.TransitionSettings) (ss : Api.StyleTransferSettings) :
  Api.API_BASE_URL env ≠ ""
  ∧ ((env = None ∨ env = Some "") → Api.API_BASE_URL env = "http://localhost:8000")
  ∧ (∀ v, env = Some v → v ≠ "" → Api.API_BASE_URL env = v)
  ∧ Forall (λ r, Axios.method r = Axios.POST
                 ∧ Axios.baseURL r = Some (Api.API_BASE_URL env)
                 ∧ Axios.contentType r = "multipart/form-data"
                 ∧ Axios.timeout r = Some 30000%Z)
      [Api.analyzeTrack_request env f; Api.createTransition_request env f f' ts;
       Api.transferStyle_request env f ss]
  ∧ Axios.url (Api.analyzeTrack_request env f) = "/api/analyze/track"
  ∧ Axios.url (Api.createTransition_request env f f' ts) = "/api/transition/create"
  ∧ Axios.url (Api.transferStyle_request env f ss) = "/api/style/transfer"
  ∧ (∀ b, (∀ b', b ≠ b' +:+ "/") →
          (Api.API_BASE_URL env = b ∨ Api.API_BASE_URL env = b +:+ "/") →
          Axios.fullURL (Api.analyzeTrack_request env f) = b +:+ "/api/analyze/track"
          ∧ Axios.fullURL (Api.createTransition_request env f f' ts)
            = b +:+ "/api/transition/create"
          ∧ Axios.fullURL (Api.transferStyle_request env f ss)
            = b +:+ "/api/style/transfer").
Proof.
  split.
  { intros H. pose proof (API_BASE_URL_nonempty env) as Hne.
    by rewrite H in Hne. }
  split; [by intros [-> | ->]|].
  split; [intros v -> Hv; by apply API_BASE_URL_set|].
  split; [by repeat constructor|].
  split; [done|]. split; [done|]. split; [done|].
  intros b Hb Hbase.
  unfold Api.analyzeTrack_request, Api.createTransition_request,
    Api.transferStyle_request. cbn zeta.
  rewrite (api_post_fullURL env _ "api/analyze/track" _ _ eq_refl eq_refl).
  rewrite (api_post_fullURL env _ "api/transition/create" _ _ eq_refl eq_refl).
  rewrite (api_post_fullURL env _ "api/style/transfer" _ _ eq_refl eq_refl).
  assert (Hdrop : Axios.dropTrailingSlash (Api.API_BASE_URL env) = b).
  { destruct Hbase as [-> | ->];
      [by apply dropTrailingSlash_plain | by apply dropTrailingSlash_one]. }
  rewrite Hdrop. done.
Qed.

Lemma api_request_urls_witness :
  Axios.fullURL
    (Api.analyzeTrack_request (Some "https://api.sonetra.example/") Samples.test1Wav)
  = "https://api.sonetra.example/api/analyze/track"
  ∧ Axios.fullURL
      (Api.createTransition_request Samples.deployedBackend Samples.test1Wav
         Samples.test2Wav Samples.twoSeconds)
    = "https://api.sonetra.example/api/transition/create".
Proof.
  assert (Hb : ∀ b', "https://api.sonetra.example" ≠ b' +:+ "/").
  { intros b' H.
    do 27 (destruct b' as [|? b']; [discriminate H|]; cbn in H; injection H as _ H).
    destruct b'; discriminate H. }
  split.
  - destruct (api_request_urls (Some "https://api.sonetra.example/") Samples.test1Wav
                Samples.test2Wav Samples.twoSeconds Samples.lofi)
      as (_ & _ & _ & _ & _ & _ & _ & H).
    destruct (H "https://api.sonetra.example" Hb (or_intror eq_refl)) as (Ha & _).
    exact Ha.
  - destruct (api_request_urls Samples.deployedBackend Samples.test1Wav
                Samples.test2Wav Samples.twoSeconds Samples.lofi)
      as (_ & _ & _ & _ & _ & _ & _ & H).
    destruct (H "https://api.sonetra.example" Hb (or_introl eq_refl)) as (_ & Ht & _).
    exact Ht.
Defined.

(** X18: the style-transfer request carries the fields [file] and
    [target_style], followed by [intensity] exactly when the settings hold
    an intensity that is neither zero nor [NaN]. The [preserve_vocals] flag
    of the settings is never sent, and neither is the [crossfade] of the
    transition settings. *)
Theorem optional_settings_sent (env : option string) (f f' : File.t)
    (ts : Api.TransitionSettings) (ss : Api.StyleTransferSettings) :
  Axios.data (Api.transferStyle_request env f ss)
    = [("file", Axios.EntryFile f);
       ("target_style", Axios.EntryString (Api.target_style ss))]
      ++ (match Api.intensity ss with
          | Some x =>
              if truthy x
              then [("intensity", Axios.EntryString (Number.toString x))]
              else []
          | None => []
          end)
  ∧ ("preserve_vocals"
       ∉ Axios.fieldNames (Axios.data (Api.transferStyle_request env f ss)))
  ∧ ("crossfade"
       ∉ Axios.fieldNames (Axios.data (Api.createTransition_request env f f' ts))).
Proof.
  split; [|split].
  - unfold Api.transferStyle_request. cbn.
    destruct (Api.intensity ss) as [x|]; [destruct (truthy x)|]; reflexivity.
  - unfold Api.transferStyle_request. cbn.
    destruct (Api.intensity ss) as [x|]; [destruct (truthy x)|]; cbn;
      intros H%list_elem_of_In; cbn in H; intuition discriminate.
  - rewrite createTransition_fieldNames.
    destruct (Api.provided _); cbn;
      intros H%list_elem_of_In; cbn in H; intuition discriminate.
Qed.

(** ** The mock handlers and the two clients *)

Section MockMatching.

Import Axios.

Lemma not_mock_analyze_url (d : string) :
  d +:+ "/api/analyze/track" ≠ "http://localhost:8000/analyze/track".
Proof.
  intros H.
  repeat (destruct d as [|? d]; [discriminate H|]; cbn in H; injection H as _ H).
  destruct d; discriminate H.
Qed.

Lemma not_mock_transition_url (d : string) :
  d +:+ "/api/transition/create" ≠ "http://localhost:8000/transition/create".
Proof.
  intros H.
  repeat (destruct d as [|? d]; [discriminate H|]; cbn in H; injection H as _ H).
  destruct d; discriminate H.
Qed.

Lemma cleanUrl_cons_fixed (c : ascii) (s : string) :
  Mocks.cleanUrl (String c s) = String c s →
  Mocks.startsQueryOrFragment c = false ∧ Mocks.cleanUrl s = s.
Proof.
  cbn [Mocks.cleanUrl]. destruct (Mocks.startsQueryOrFragment c); [done|].
  by intros [= ->].
Qed.

(** Behind a part with no query string or fragment, only the rest counts. *)
Lemma cleanUrl_app (a b : string) :
  Mocks.cleanUrl a = a → Mocks.cleanUrl (a +:+ b) = a +:+ Mocks.cleanUrl b.
Proof.
  induction a as [|c a IH]; intros Ha; [done|].
  apply cleanUrl_cons_fixed in Ha as [Hc Ha].
  change (String c a +:+ b) with (String c (a +:+ b)).
  cbn [Mocks.cleanUrl]. rewrite Hc, IH by done. reflexivity.
Qed.

Lemma cleanUrl_dropTrailingSlash (s : string) :
  Mocks.cleanUrl s = s → Mocks.cleanUrl (dropTrailingSlash s) = dropTrailingSlash s.
Proof.
  induction s as [|c s IH]; intros Hs; [done|].
  apply cleanUrl_cons_fixed in Hs as [Hc Hs].
  rewrite dropTrailingSlash_cons.
  destruct (_ && _); [done|].
  cbn [Mocks.cleanUrl]. rewrite Hc, IH by done. reflexivity.
Qed.

(** The origin and path of a request of the service layer, for a base URL
    with no query string or fragment. *)
Lemma api_post_cleanUrl (env : option string) (path rest : string)
    (fd : FormData) (rt : ResponseType) :
  path = String "/" rest → String.prefix "/" rest = false →
  Mocks.cleanUrl (Api.API_BASE_URL env) = Api.API_BASE_URL env →
  Mocks.cleanUrl (fullURL (Api.api_post env path fd rt))
  = dropTrailingSlash (Api.API_BASE_URL env)
    +:+ Mocks.cleanUrl ("/" +:+ dropLeadingSlashes rest).
Proof.
  intros Hp Hrest Hclean.
  rewrite (api_post_fullURL env path rest fd rt Hp Hrest).
  apply cleanUrl_app. by apply cleanUrl_dropTrailingSlash.
Qed.

End MockMatching.

(** X19: the mock handlers answer the requests of the [AudioProcessor]
    component, for every file and style, with status 200 and their canned
    bodies. They match no analysis or transition request of the service
    layer when the base URL holds no query string and no fragment: its
    paths begin with [/api]. A base URL that ends in a query string can
    make a request of the service layer match: the handlers compare origin
    and path only. *)
Theorem mocks_match_component_only (env : option string) (f1 f2 : File.t)
    (style : string) (ts : Api.TransitionSettings) :
  Mocks.cleanUrl (Api.API_BASE_URL env) = Api.API_BASE_URL env →
  Mocks.intercept Mocks.analyzeHandler (AudioProcessor.analyzeRequest f1)
    = Axios.Reply 200 Mocks.analysisPayload
  ∧ Mocks.intercept Mocks.transitionHandler
      (AudioProcessor.transitionRequest f1 f2 style)
    = Axios.Reply 200 Mocks.audioBlob
  ∧ Mocks.matches Mocks.analyzeHandler (Api.analyzeTrack_request env f1) = false
  ∧ Mocks.matches Mocks.transitionHandler
      (Api.createTransition_request env f1 f2 ts) = false
  ∧ Mocks.matches Mocks.analyzeHandler
      (Api.analyzeTrack_request Samples.queryBackend f1) = true.
Proof.
  intros Hclean.
  split; [reflexivity|]. split; [reflexivity|]. split; [|split; [|reflexivity]].
  - unfold Mocks.matches, Api.analyzeTrack_request. cbn zeta.
    rewrite (api_post_cleanUrl env _ "api/analyze/track" _ _ eq_refl eq_refl Hclean).
    apply andb_false_intro2. apply String.eqb_neq. intros H. symmetry in H.
    by apply not_mock_analyze_url in H.
  - unfold Mocks.matches, Api.createTransition_request. cbn zeta.
    rewrite (api_post_cleanUrl env _ "api/transition/create" _ _ eq_refl eq_refl
               Hclean).
    apply andb_false_intro2. apply String.eqb_neq. intros H. symmetry in H.
    by apply not_mock_transition_url in H.
Qed.

Lemma mocks_match_component_only_witness :
  Mocks.matches Mocks.analyzeHandler
    (Api.analyzeTrack_request Samples.deployedBackend Samples.test1Wav) = false
  ∧ Mocks.matches Mocks.transitionHandler
      (Api.createTransition_request Samples.deployedBackend Samples.test1Wav
         Samples.test2Wav Samples.twoSeconds) = false.
Proof.
  destruct (mocks_match_component_only Samples.deployedBackend Samples.test1Wav
              Samples.test2Wav "smooth" Samples.twoSeconds eq_refl)
    as (_ & _ & Ha & Ht & _).
  split; [exact Ha | exact Ht].
Defined.

(** ** Edge cases and progress *)

(** X20: an update or a reset for an identifier that no track has leaves
    the list as it is. *)
Theorem updateTrack_absent (i : string) (u : Mixing.PartialTrack)
    (tracks : list Mixing.Track) :
  i ∉ map Mixing.id tracks →
  Mixing.updateTrack i u tracks = tracks
  ∧ Mixing.resetTrack i tracks = tracks
  ∧ MixingPage.currentTrack i tracks = None.
Proof.
  intros Hi.
  assert (H : ∀ v, Mixing.updateTrack i v tracks = tracks).
  { intros v. unfold Mixing.updateTrack.
    rewrite <- (map_id tracks) at 2. apply map_ext_in. intros t Ht.
    rewrite bool_decide_eq_false_2; [done|].
    intros <-. apply Hi. apply list_elem_of_In. by apply in_map. }
  split; [apply H|]. split; [apply H|].
  unfold MixingPage.currentTrack.
  destruct (find _ tracks) as [t|] eqn:Hfind; [|done].
  apply find_some in Hfind as [Hin Hid]. apply bool_decide_eq_true in Hid.
  exfalso. apply Hi. rewrite <- Hid. apply list_elem_of_In. by apply in_map.
Qed.

Lemma updateTrack_absent_witness :
  Mixing.resetTrack "5" Mixing.initialTracks = Mixing.initialTracks.
Proof.
  refine (proj1 (proj2 (updateTrack_absent "5" Mixing.resetUpdates
                          Mixing.initialTracks _))).
  cbn. intros H%list_elem_of_In. cbn in H. intuition discriminate.
Defined.

(** X21: dropping files in two batches gives the page that dropping them
    all at once gives, identifiers included; a drop of no file changes
    nothing. *)
Theorem onDrop_batches (random36 : nat → string) (first second : list File.t)
    (s : Studio.Session) :
  Studio.onDrop random36 (first ++ second) s
    = Studio.onDrop random36 second (Studio.onDrop random36 first s)
  ∧ Studio.uploads random36 [first; second] s
    = Studio.onDrop random36 (first ++ second) s
  ∧ Studio.onDrop random36 [] s = s.
Proof.
  split; [apply fold_left_app|]. split; [|done].
  rewrite uploads_concat. cbn. by rewrite app_nil_r.
Qed.

(** X22: the component never stays loading for want of an event: in every
    state it can reach with the loading flag on, the request in flight can
    settle, and whatever the reply, the state after it has the flag off. *)
Theorem loading_can_end (wavesurfer : option AudioProcessor.WaveSurfer)
    (ui : AudioProcessor.UI) :
  AudioProcessor.reachable wavesurfer ui →
  AudioProcessor.loading (AudioProcessor.st ui) = true →
  (∀ reply, ∃ ui',
     AudioProcessor.step wavesurfer (AudioProcessor.AnalysisSettles reply) ui = Some ui'
     ∧ AudioProcessor.loading (AudioProcessor.st ui') = false)
  ∨ (∀ reply, ∃ ui',
       AudioProcessor.step wavesurfer (AudioProcessor.TransitionSettles reply) ui
         = Some ui'
       ∧ AudioProcessor.loading (AudioProcessor.st ui') = false).
Proof.
  intros Hreach Hl.
  destruct (reachable_tracked wavesurfer ui Hreach) as [[_ Hoff] | (p & Hfl & _ & _)];
    [congruence|].
  destruct ui as [s fl]. cbn in Hfl, Hl |- *. subst fl.
  destruct p; [left | right]; intros reply; eexists; (split; [reflexivity|]); cbn.
  - apply handleAnalyze_resume_loading.
  - by destruct (handleCreateTransition_resume_state wavesurfer
                   (Axios.settle reply) s) as [-> | ->].
Qed.

Lemma loading_can_end_witness :
  ∃ ui',
    AudioProcessor.step (Some Samples.markerWidget)
      (AudioProcessor.AnalysisSettles Axios.NetworkFailure) Samples.analyzing = Some ui'
    ∧ AudioProcessor.loading (AudioProcessor.st ui') = false.
Proof.
  assert (H : AudioProcessor.reachable (Some Samples.markerWidget) Samples.analyzing).
  { eapply AudioProcessor.reachable_step with (e := AudioProcessor.ClickAnalyze).
    - eapply AudioProcessor.reachable_step
        with (e := AudioProcessor.FileChosen (Some Samples.testWav) true).
      + apply AudioProcessor.reachable_mounted.
      + reflexivity.
    - reflexivity. }
  destruct (loading_can_end (Some Samples.markerWidget) Samples.analyzing H eq_refl)
    as [Ha | Ht].
  - exact (Ha Axios.NetworkFailure).
  - destruct (Ht Axios.NetworkFailure) as (ui' & Hstep & _). discriminate Hstep.
Defined.
